(** * A TFTP server: packet codec, transfer sessions and dispatcher

    Shallow embedding of [types.go] and [server.go] of the [tftp] package
    (both are part of [src/cmd/tftp.go]).  Go byte slices and Go strings
    are lists of [byte]; [uint16] values are [Z] with the wrap-around
    written out; a method with a pointer receiver takes the receiver and
    returns its new value.  Sockets and the file system are explicit: a
    session is a function of what its peer answers and records every
    datagram it transmits. *)

From Stdlib.Strings Require Import String Byte.
From Stdlib Require Import ZArith NArith List Lia Bool.
Import ListNotations.
Open Scope Z_scope.

Set Implicit Arguments.

(** ** The pieces of the Go runtime the package calls *)

Module Go.

Definition bytes := list byte.

(** A Go string literal, as the bytes it holds. *)
Definition str (s : string) : bytes := list_byte_of_string s.

Definition byte_to_Z (b : byte) : Z := Z.of_N (Byte.to_N b).

(** The conversion [byte(z)]: the low eight bits. *)
Definition byte_of_Z (z : Z) : byte :=
  match Byte.of_N (Z.to_N (z mod 256)) with
  | Some b => b
  | None => x00
  end.

(** Arithmetic on [uint16] wraps around. *)
Definition uint16 (z : Z) : Z := z mod 65536.

(** [len] of a slice or string, as an [int]. *)
Definition len (A : Type) (l : list A) : Z := Z.of_nat (length l).

(** The errors of package [io] that reach the codec. *)
Inductive io_error := EOF | ErrUnexpectedEOF.

(** [binary.Write(w, binary.BigEndian, v)] for a 16-bit [v]: the
    two bytes appended to the buffer.  A [bytes.Buffer] never refuses a
    write. *)
Definition Write_u16 (v : Z) : bytes :=
  [byte_of_Z (v / 256); byte_of_Z v].

(** [binary.Read(r, binary.BigEndian, &v)] for a 16-bit [v]: the value
    and the unread rest, or the error of [io.ReadFull]. *)
Definition Read_u16 (r : bytes) : (Z * bytes) + io_error :=
  match r with
  | hi :: lo :: rest => inl (256 * byte_to_Z hi + byte_to_Z lo, rest)
  | [_] => inr ErrUnexpectedEOF
  | [] => inr EOF
  end.

(** [ReadString(0)] of a [bytes.Buffer]: the bytes up to and including the
    first NUL, the unread rest, and [Some EOF] when no NUL was found
    (the whole rest is returned then). *)
Fixpoint ReadString0 (r : bytes) : bytes * bytes * option io_error :=
  match r with
  | [] => ([], [], Some EOF)
  | b :: r' =>
      if Byte.eqb b x00 then ([b], r', None)
      else let '(line, rest, err) := ReadString0 r' in (b :: line, rest, err)
  end.

(** [strings.TrimRight(s, "\x00")]. *)
Fixpoint TrimRight0 (s : bytes) : bytes :=
  match s with
  | [] => []
  | b :: s' =>
      match TrimRight0 s' with
      | [] => if Byte.eqb b x00 then [] else [b]
      | t => b :: t
      end
  end.

(** [strings.ToLower] on the bytes of a string: the letters A..Z are
    mapped to a..z and every other byte is kept.  Go's function is this
    one on strings of ASCII bytes.  On a string with a byte above 127 it
    works rune by rune; its result is then never the word octet (the two
    runes outside ASCII whose lower case is inside are U+212A and U+0130,
    which give k and i), and neither is the result here, which keeps the
    byte above 127. *)
Definition lower_byte (b : byte) : byte :=
  let z := byte_to_Z b in
  if (65 <=? z) && (z <=? 90) then byte_of_Z (z + 32) else b.

Definition ToLower (s : bytes) : bytes := map lower_byte s.

(** Equality of strings, [==]. *)
Definition string_eqb (a b : bytes) : bool :=
  if list_eq_dec Byte.byte_eq_dec a b then true else false.

(** [make([]byte, n)]. *)
Definition make (n : Z) : bytes := repeat x00 (Z.to_nat n).

(** [conn.Read(buf)] on a datagram socket when the datagram [d] arrives:
    the count [n] and the new contents of [buf].  The bytes of [d] that
    fit are copied to the front of [buf], what does not fit is dropped,
    and the bytes of [buf] from position [n] on stay as they were. *)
Definition Read (buf d : bytes) : Z * bytes :=
  let n := Nat.min (length d) (length buf) in
  (Z.of_nat n, firstn n d ++ skipn n buf).

End Go.

Import Go.

(** ** types.go *)

(** Entire tftp datagram size (without headers and trailers) *)
Definition DatagramSize : Z := 516.
(** the amount of data, in bytes, transferred in a single packet *)
Definition BlockSize : Z := DatagramSize - 4.

(** [OperationCode] is a [uint16]. *)
Definition OperationCode := Z.
Definition OpRRQ : OperationCode := 1.
Definition OpWRQ : OperationCode := 2.
Definition OpData : OperationCode := 3.
Definition OpAck : OperationCode := 4.
Definition OpErr : OperationCode := 5.

(** [ErrCode] is a [uint16]. *)
Definition ErrCode := Z.
Definition ErrUnknown : ErrCode := 0.
Definition ErrNotFound : ErrCode := 1.
Definition ErrAccessViolation : ErrCode := 2.
Definition ErrDiskFull : ErrCode := 3.
Definition ErrIllegalOp : ErrCode := 4.
Definition ErrUnknownID : ErrCode := 5.
Definition ErrFileExists : ErrCode := 6.
Definition ErrNoUser : ErrCode := 7.

(** The [error] values the codec returns; [None] below is Go's [nil]. *)
Inductive error :=
| IoError (e : io_error)
    (* an error of binary.Read or ReadString, returned as it is *)
| InvalidWRQ (code : OperationCode)
    (* "Invalid WRQ: <code>" *)
| WRQNotOctet
    (* "No. We only accept data in octet mode." *)
| InvalidRRQ (code : OperationCode)
    (* "Invalid RRQ: code is <code>" *)
| RRQFilename (cause : io_error)
    (* "invalid RRQ: failed to read filename: <cause>" *)
| RRQMode (cause : option io_error)
    (* "invalid RRQ: failed to read Mode: <cause>" *)
| RRQNotOctet
    (* "Only binary transfer supported. please use octet mode" *)
| InvalidDATA
    (* "invalid DATA" *)
| InvalidOperation
    (* "Invalid Operation" *)
| InvalidError.
    (* "Invalid Error" *)

Record WriteReq := { W_Filename : bytes; W_Mode : bytes }.

Definition WriteReq_UnmarshalBinary (w : WriteReq) (p : bytes)
  : WriteReq * option error :=
  match Read_u16 p with
  | inr e => (w, Some (IoError e))
  | inl (code, b) =>
      if negb (code =? OpWRQ) then (w, Some (InvalidWRQ code))
      else
        let '(filename, b, _) := ReadString0 b in
        let filename := TrimRight0 filename in
        let '(mode, _, _) := ReadString0 b in
        let mode := TrimRight0 mode in
        let w := {| W_Filename := filename; W_Mode := mode |} in
        if negb (string_eqb mode (str "octet")) then (w, Some WRQNotOctet)
        else (w, None)
  end.

Record ReadReq := { R_Filename : bytes; R_Mode : bytes }.

Definition ReadReq_MarshalBinary (q : ReadReq) : bytes :=
  let mode := if negb (string_eqb (R_Mode q) []) then R_Mode q
              else str "octet" in
  Write_u16 OpRRQ ++ R_Filename q ++ [x00] ++ mode ++ [x00].

Definition ReadReq_UnmarshalBinary (q : ReadReq) (p : bytes)
  : ReadReq * option error :=
  match Read_u16 p with
  | inr e => (q, Some (IoError e))
  | inl (code, r) =>
      if negb (code =? OpRRQ) then (q, Some (InvalidRRQ code))
      else
        let '(filename, r, err) := ReadString0 r in
        let q := {| R_Filename := filename; R_Mode := R_Mode q |} in
        match err with
        | Some e => (q, Some (RRQFilename e))
        | None =>
            let q := {| R_Filename := TrimRight0 filename;
                        R_Mode := R_Mode q |} in
            let '(mode, _, err) := ReadString0 r in
            let q := {| R_Filename := R_Filename q; R_Mode := mode |} in
            match err with
            | Some e => (q, Some (RRQMode (Some e)))
            | None =>
                let q := {| R_Filename := R_Filename q;
                            R_Mode := TrimRight0 mode |} in
                if len (R_Mode q) =? 0 then (q, Some (RRQMode None))
                else
                  let actual := ToLower (R_Mode q) in
                  if negb (string_eqb actual (str "octet"))
                  then (q, Some RRQNotOctet)
                  else (q, None)
            end
        end
  end.

(** TFTP Data Message Format.  [Payload] is an [io.Reader]: the bytes it
    has still to give. *)
Record Data := { D_Block : Z; D_Payload : bytes }.

(** The method increments [d.Block] and reads [d.Payload]: it returns the
    datagram and the receiver as it leaves it.  Writes to a
    [bytes.Buffer] do not fail, and [io.CopyN] from a reader over bytes
    gives no error but [io.EOF], which the method lets pass: the error
    result is always [nil]. *)
Definition Data_MarshalBinary (d : Data) : bytes * Data :=
  let d := {| D_Block := uint16 (D_Block d + 1); D_Payload := D_Payload d |} in
  let n := Z.to_nat BlockSize in
  (Write_u16 OpData ++ Write_u16 (D_Block d) ++ firstn n (D_Payload d),
   {| D_Block := D_Block d; D_Payload := skipn n (D_Payload d) |}).

Definition Data_UnmarshalBinary (d : Data) (p : bytes)
  : Data * option error :=
  let l := len p in
  if (l <? 4) || (l >? DatagramSize) then (d, Some InvalidDATA)
  else
    match Read_u16 (firstn 2 p) with
    | inr _ => (d, Some InvalidDATA)
    | inl (opcode, _) =>
        if negb (opcode =? OpData) then (d, Some InvalidDATA)
        else
          match Read_u16 (firstn 2 (skipn 2 p)) with
          | inr _ => (d, Some InvalidDATA)
          | inl (block, _) =>
              ({| D_Block := block; D_Payload := skipn 4 p |}, None)
          end
    end.

Record Ack := { A_Block : Z }.

Definition Ack_MarshalBinary (a : Ack) : bytes :=
  Write_u16 OpAck ++ Write_u16 (A_Block a).

Definition Ack_UnmarshalBinary (a : Ack) (p : bytes) : Ack * option error :=
  match Read_u16 p with
  | inr e => (a, Some (IoError e))
  | inl (code, r) =>
      if negb (code =? OpAck) then (a, Some InvalidOperation)
      else
        match Read_u16 r with
        | inr e => (a, Some (IoError e))
        | inl (block, _) => ({| A_Block := block |}, None)
        end
  end.

Record Err := { E_Error : ErrCode; E_Message : bytes }.

Definition Err_MarshalBinary (e : Err) : bytes :=
  Write_u16 OpErr ++ Write_u16 (E_Error e) ++ E_Message e ++ [x00].

Definition Err_UnmarshalBinary (e : Err) (p : bytes) : Err * option error :=
  match Read_u16 p with
  | inr x => (e, Some (IoError x))
  | inl (opcode, r) =>
      if negb (opcode =? OpErr) then (e, Some InvalidError)
      else
        match Read_u16 r with
        | inr x => (e, Some (IoError x))
        | inl (code, r) =>
            let '(message, _, err) := ReadString0 r in
            ({| E_Error := code; E_Message := TrimRight0 message |},
             option_map IoError err)
        end
  end.

(** The zero values of the packet types ([var rrq ReadReq] and the like). *)
Definition ReadReq0 : ReadReq := {| R_Filename := []; R_Mode := [] |}.
Definition WriteReq0 : WriteReq := {| W_Filename := []; W_Mode := [] |}.
Definition Data0 : Data := {| D_Block := 0; D_Payload := [] |}.
Definition Ack0 : Ack := {| A_Block := 0 |}.
Definition Err0 : Err := {| E_Error := 0; E_Message := [] |}.

(** ** server.go *)

Record TFTPServer := {
  (* Whether to accept WriteRequest or not *)
  WriteAllowed : bool;
  (* Where to save the files *)
  WriteDir : bytes;
  (* [None] is the [nil] slice *)
  Payload : option bytes;
  (* a [uint8] *)
  Retries : Z;
  (* a [time.Duration], in nanoseconds *)
  Timeout : Z
}.

Definition Second : Z := 1000000000.

(** [bytes.NewReader(s.Payload)]: a [nil] slice reads as an empty one. *)
Definition NewReader (p : option bytes) : bytes :=
  match p with Some b => b | None => [] end.

(** *** The socket of a session

    A session dials the client and then, in rounds, writes one datagram
    and reads one.  [round] is what a round gives: the write fails, or it
    succeeds and the read that follows times out, fails otherwise, or
    returns a datagram.  A [peer] decides it from the datagrams the
    session has written so far, the last one being the one of this
    round. *)
Inductive round :=
| WriteFails
| ReadTimesOut
| ReadFails
| Receives (d : bytes).

Definition peer := list bytes -> round.

(** *** handleRead *)

(** The local variables of [handleRead], with [rd_sent], the datagrams
    written on the session socket, oldest first. *)
Record download := {
  rd_sent : list bytes;
  rd_ackPkt : Ack;
  rd_errPkt : Err;
  rd_dataPkt : Data;
  rd_buf : bytes;
  rd_n : Z
}.

(** [n, err = conn.Write(data)] when it succeeds. *)
Definition rd_Write (st : download) (data : bytes) : download :=
  {| rd_sent := rd_sent st ++ [data];
     rd_ackPkt := rd_ackPkt st; rd_errPkt := rd_errPkt st;
     rd_dataPkt := rd_dataPkt st; rd_buf := rd_buf st; rd_n := len data |}.

(** [_, err = conn.Read(buf)] when the datagram [d] arrives. *)
Definition rd_Read (st : download) (d : bytes) : download :=
  {| rd_sent := rd_sent st;
     rd_ackPkt := rd_ackPkt st; rd_errPkt := rd_errPkt st;
     rd_dataPkt := rd_dataPkt st; rd_buf := snd (Read (rd_buf st) d);
     rd_n := rd_n st |}.

Definition rd_set_ackPkt (st : download) (a : Ack) : download :=
  {| rd_sent := rd_sent st;
     rd_ackPkt := a; rd_errPkt := rd_errPkt st;
     rd_dataPkt := rd_dataPkt st; rd_buf := rd_buf st; rd_n := rd_n st |}.

Definition rd_set_errPkt (st : download) (e : Err) : download :=
  {| rd_sent := rd_sent st;
     rd_ackPkt := rd_ackPkt st; rd_errPkt := e;
     rd_dataPkt := rd_dataPkt st; rd_buf := rd_buf st; rd_n := rd_n st |}.

Definition rd_set_dataPkt (st : download) (d : Data) : download :=
  {| rd_sent := rd_sent st;
     rd_ackPkt := rd_ackPkt st; rd_errPkt := rd_errPkt st;
     rd_dataPkt := d; rd_buf := rd_buf st; rd_n := rd_n st |}.

(** How [handleRead] ends, by its last log line. *)
Inductive read_exit :=
| ReadDial                       (* "dial: ..." *)
| ReadWrite                      (* "write: ..." *)
| ReadWaitingForAck              (* "waiting for ACK: ..." *)
| ReadReceivedError (m : bytes)  (* "received error: ..." *)
| ReadExhaustedRetries           (* "exhausted retries" *)
| ReadSendBlocks (blocks : Z)    (* "send %d blocks" *)
| ReadMoreBlocks.                (* the bound on the blocks below is reached *)

(** What the [switch] on the datagram in [buf] does: [continue NEXTPACKET],
    [return], or fall to the end of the body of the loop [RETRY]. *)
Inductive after_switch :=
| ContinueNEXTPACKET
| Return (e : read_exit)
| EndOfBody.

Definition switch (st : download) : after_switch * download :=
  let '(ackPkt, err) := Ack_UnmarshalBinary (rd_ackPkt st) (rd_buf st) in
  let st := rd_set_ackPkt st ackPkt in
  match err with
  | None =>
      if uint16 (A_Block (rd_ackPkt st)) =? D_Block (rd_dataPkt st)
      then (ContinueNEXTPACKET, st)
      else (EndOfBody, st)
  | Some _ =>
      let '(errPkt, err) := Err_UnmarshalBinary (rd_errPkt st) (rd_buf st) in
      let st := rd_set_errPkt st errPkt in
      match err with
      | None => (Return (ReadReceivedError (E_Message (rd_errPkt st))), st)
      | Some _ => (EndOfBody, st)   (* "bad packet: ..." *)
      end
  end.

(** The loop labelled [RETRY], entered with [i] attempts left: either
    [continue NEXTPACKET] ([None]) or a [return] ([Some]).  Leaving the
    loop at [i = 0] runs into the "exhausted retries" return. *)
Fixpoint RETRY (net : peer) (data : bytes) (i : nat) (st : download)
  : option read_exit * download :=
  match i with
  | O => (Some ReadExhaustedRetries, st)
  | S i' =>
      match net (rd_sent st ++ [data]) with
      | WriteFails => (Some ReadWrite, st)
      | ReadTimesOut => RETRY net data i' (rd_Write st data)
      | ReadFails => (Some ReadWaitingForAck, rd_Write st data)
      | Receives d =>
          match switch (rd_Read (rd_Write st data) d) with
          | (ContinueNEXTPACKET, st) => (None, st)
          | (Return e, st) => (Some e, st)
          | (EndOfBody, st) => RETRY net data i' st
          end
      end
  end.

(** The loop labelled [NEXTPACKET].  [blocks] bounds the number of times
    its body runs; [handleRead] gives a bound the loop never reaches
    (lemma [handleRead_returns]). *)
Fixpoint NEXTPACKET (s : TFTPServer) (net : peer) (blocks : nat)
  (st : download) : read_exit * download :=
  if rd_n st =? DatagramSize then
    match blocks with
    | O => (ReadMoreBlocks, st)
    | S blocks' =>
        let '(data, dataPkt) := Data_MarshalBinary (rd_dataPkt st) in
        let st := rd_set_dataPkt st dataPkt in
        match RETRY net data (Z.to_nat (Retries s)) st with
        | (None, st) => NEXTPACKET s net blocks' st
        | (Some e, st) => (e, st)
        end
    end
  else (ReadSendBlocks (D_Block (rd_dataPkt st)), st).

(** The variables of [handleRead] as its [var] block and the first clause
    of the loop [NEXTPACKET] set them. *)
Definition rd_var (s : TFTPServer) : download :=
  {| rd_sent := [];
     rd_ackPkt := Ack0;
     rd_errPkt := Err0;
     rd_dataPkt := {| D_Block := 0; D_Payload := NewReader (Payload s) |};
     rd_buf := make DatagramSize;
     rd_n := DatagramSize |}.

(** [dial] tells whether [net.Dial] succeeds.  The result is how the
    session ends and what it has written on its socket. *)
Definition handleRead (s : TFTPServer) (dial : bool) (net : peer)
  (rrq : ReadReq) : read_exit * list bytes :=
  if negb dial then (ReadDial, [])
  else
    let '(e, st) :=
      NEXTPACKET s net (S (length (NewReader (Payload s)))) (rd_var s) in
    (e, rd_sent st).

(** *** handleWrite *)

(** What the session meets after its first acknowledgement: [conn.Read]
    fails, or a datagram arrives; [write] and [ack] tell whether the
    [file.Write] and the [conn.Write] that may follow it succeed. *)
Inductive arrival :=
| ArrivalFails
| Arrives (d : bytes) (write ack : bool).

(** The world of an upload: whether [net.Dial], the first [conn.Write]
    and [os.Create] succeed, and what arrives then. *)
Record uplink := {
  up_dial : bool;
  up_ack0 : bool;
  up_create : bool;
  up_arrivals : list arrival
}.

(** The local variables of [handleWrite], with [wr_sent], the datagrams
    written on the session socket, oldest first, and [wr_file], the path
    given to [os.Create] and what has been written to the file. *)
Record upload := {
  wr_sent : list bytes;
  wr_file : option (bytes * bytes);
  wr_ackPkt : Ack;
  wr_errPkt : Err;
  wr_dataPkt : Data;
  wr_buf : bytes;
  wr_n : Z
}.

(** How [handleWrite] ends. *)
Inductive write_exit :=
| WriteDial                       (* "dial: ..." *)
| WriteAck                        (* "ack: ..." *)
| WriteCreateFile                 (* "CreateFile: ..." *)
| WriteReading                    (* "Error when reading from connection" *)
| WriteReceivedError (m : bytes)  (* "received error: ..." *)
| WriteDecode (e : error)         (* the error of the Data decoder *)
| WriteDisk                       (* "can't write the buffer into disk" *)
| WritePanic                      (* slice bounds out of range *)
| WriteReceived (blocks : Z)      (* "Recieved %d blocks of data ..." *)
| WriteBlocked.                   (* still in [conn.Read]: nothing arrives *)

(** The slice expression [data[:k]]: [None] is the run-time panic.  Here
    [k] is at most [len(data)]: [n] is at most [len(buf)], and [data] has
    all the bytes of [buf] but four. *)
Definition slice_to (data : bytes) (k : Z) : option bytes :=
  if k <? 0 then None else Some (firstn (Z.to_nat k) data).

(** The receiving loop of [handleWrite]. *)
Fixpoint receive (arrivals : list arrival) (st : upload)
  : write_exit * upload :=
  if wr_n st =? DatagramSize then
    match arrivals with
    | [] => (WriteBlocked, st)
    | ArrivalFails :: _ => (WriteReading, st)
    | Arrives d write ack :: arrivals' =>
        let '(n, buf) := Read (wr_buf st) d in
        let '(errPkt, err) := Err_UnmarshalBinary (wr_errPkt st) buf in
        let st := {| wr_sent := wr_sent st; wr_file := wr_file st;
                     wr_ackPkt := wr_ackPkt st; wr_errPkt := errPkt;
                     wr_dataPkt := wr_dataPkt st; wr_buf := buf;
                     wr_n := n |} in
        match err with
        | None => (WriteReceivedError (E_Message errPkt), st)
        | Some _ =>
            let '(dataPkt, err) := Data_UnmarshalBinary (wr_dataPkt st) buf in
            let st := {| wr_sent := wr_sent st; wr_file := wr_file st;
                         wr_ackPkt := wr_ackPkt st; wr_errPkt := wr_errPkt st;
                         wr_dataPkt := dataPkt; wr_buf := wr_buf st;
                         wr_n := wr_n st |} in
            match err with
            | Some e => (WriteDecode e, st)
            | None =>
                (* io.ReadAll empties the reader *)
                let data := D_Payload dataPkt in
                let dataPkt := {| D_Block := D_Block dataPkt;
                                  D_Payload := [] |} in
                let st := {| wr_sent := wr_sent st; wr_file := wr_file st;
                             wr_ackPkt := wr_ackPkt st;
                             wr_errPkt := wr_errPkt st;
                             wr_dataPkt := dataPkt; wr_buf := wr_buf st;
                             wr_n := wr_n st |} in
                match slice_to data (n - 4) with
                | None => (WritePanic, st)
                | Some block =>
                    if negb write then (WriteDisk, st)
                    else
                      let file :=
                        match wr_file st with
                        | Some (path, written) => Some (path, written ++ block)
                        | None => None
                        end in
                      let ackPkt := {| A_Block := D_Block dataPkt |} in
                      let st := {| wr_sent := wr_sent st; wr_file := file;
                                   wr_ackPkt := ackPkt;
                                   wr_errPkt := wr_errPkt st;
                                   wr_dataPkt := wr_dataPkt st;
                                   wr_buf := wr_buf st; wr_n := wr_n st |} in
                      let data := Ack_MarshalBinary ackPkt in
                      if negb ack then (WriteAck, st)
                      else
                        receive arrivals'
                          {| wr_sent := wr_sent st ++ [data];
                             wr_file := wr_file st;
                             wr_ackPkt := wr_ackPkt st;
                             wr_errPkt := wr_errPkt st;
                             wr_dataPkt := wr_dataPkt st;
                             wr_buf := wr_buf st; wr_n := wr_n st |}
                end
            end
        end
    end
  else (WriteReceived (A_Block (wr_ackPkt st)), st).

(** The result is how the session ends and the state it ends in. *)
Definition handleWrite (s : TFTPServer) (env : uplink) (wrq : WriteReq)
  : write_exit * upload :=
  let st := {| wr_sent := []; wr_file := None;
               wr_ackPkt := Ack0;
               wr_errPkt := Err0;
               wr_dataPkt := Data0;
               wr_buf := make DatagramSize;
               wr_n := DatagramSize |} in
  if negb (up_dial env) then (WriteDial, st)
  else
    (* Initial Ack packet to WRQ *)
    let data := Ack_MarshalBinary (wr_ackPkt st) in
    if negb (up_ack0 env) then (WriteAck, st)
    else
      let st := {| wr_sent := wr_sent st ++ [data]; wr_file := wr_file st;
                   wr_ackPkt := wr_ackPkt st; wr_errPkt := wr_errPkt st;
                   wr_dataPkt := wr_dataPkt st; wr_buf := wr_buf st;
                   wr_n := wr_n st |} in
      if negb (up_create env) then (WriteCreateFile, st)
      else
        (* os.Create(wrq.Filename): the file is created, or truncated if
           it exists *)
        let st := {| wr_sent := wr_sent st;
                     wr_file := Some (W_Filename wrq, []);
                     wr_ackPkt := wr_ackPkt st; wr_errPkt := wr_errPkt st;
                     wr_dataPkt := wr_dataPkt st; wr_buf := wr_buf st;
                     wr_n := wr_n st |} in
        receive (up_arrivals env) st.

(** *** Serve *)

(** What the listening socket gives to [conn.ReadFrom]: an error, or a
    datagram and the address it comes from. *)
Inductive listened :=
| ListenFails
| From (addr : bytes) (d : bytes).

(** What the loop of [Serve] does that can be seen from outside. *)
Inductive action :=
| WriteTo (data : bytes) (addr : bytes)
    (* conn.WriteTo(data, addr), on the listening socket *)
| GoHandleRead (s : TFTPServer) (clientAddr : bytes) (rrq : ReadReq)
    (* go s.handleRead(addr.String(), rrq) *)
| GoHandleWrite (s : TFTPServer) (clientAddr : bytes) (wrq : WriteReq)
    (* go s.handleWrite(addr.String(), wrq) *)
| BadRequest (addr : bytes) (err : error).
    (* "bad request: ..." *)

Inductive serve_exit :=
| NilConnection       (* "Nil Connection" *)
| PayloadRequired     (* "Payload is required" *)
| ListenError         (* the error of conn.ReadFrom *)
| ServeBlocked.       (* still in conn.ReadFrom: nothing arrives *)

Fixpoint Serve_loop (s : TFTPServer) (rrq : ReadReq) (wrq : WriteReq)
  (conn : list listened) : serve_exit * list action :=
  match conn with
  | [] => (ServeBlocked, [])
  | ListenFails :: _ => (ListenError, [])
  | From addr d :: conn' =>
      let buf := snd (Read (make DatagramSize) d) in
      let '(rrq, err) := ReadReq_UnmarshalBinary rrq buf in
      match err with
      | None =>
          let '(e, acts) := Serve_loop s rrq wrq conn' in
          (e, GoHandleRead s addr rrq :: acts)
      | Some _ =>
          let '(wrq, err) := WriteReq_UnmarshalBinary wrq buf in
          match err with
          | None =>
              let reject :=
                if Bool.eqb (WriteAllowed s) false
                then [WriteTo
                        (Err_MarshalBinary
                           {| E_Error := ErrIllegalOp;
                              E_Message :=
                                str "We don't accept write requests" |})
                        addr]
                else [] in
              let '(e, acts) := Serve_loop s rrq wrq conn' in
              (e, reject ++ GoHandleWrite s addr wrq :: acts)
          | Some err =>
              let '(e, acts) := Serve_loop s rrq wrq conn' in
              (e, BadRequest addr err :: acts)
          end
      end
  end.

(** The defaults [Serve] writes into its receiver before the loop. *)
Definition Serve_defaults (s : TFTPServer) : TFTPServer :=
  let s := if Retries s =? 0
           then {| WriteAllowed := WriteAllowed s; WriteDir := WriteDir s;
                   Payload := Payload s; Retries := 10;
                   Timeout := Timeout s |}
           else s in
  if Timeout s =? 0
  then {| WriteAllowed := WriteAllowed s; WriteDir := WriteDir s;
          Payload := Payload s; Retries := Retries s;
          Timeout := 4 * Second |}
  else s.

(** [conn] is [None] for a [nil] connection. *)
Definition Serve (s : TFTPServer) (conn : option (list listened))
  : serve_exit * list action :=
  match conn with
  | None => (NilConnection, [])
  | Some conn =>
      match Payload s with
      | None => (PayloadRequired, [])
      | Some _ =>
          Serve_loop (Serve_defaults s) ReadReq0 WriteReq0 conn
      end
  end.

(** ** The words of the properties *)

(** A string that can stand in a NUL-terminated field. *)
Definition no_NUL (s : bytes) : bool :=
  forallb (fun b => negb (Byte.eqb b x00)) s.

(** The wire layout of a request: opcode, filename, NUL, mode, NUL (the
    drawing above [WriteReq] in the source). *)
Definition request_wire (op : OperationCode) (filename mode : bytes) : bytes :=
  Write_u16 op ++ filename ++ [x00] ++ mode ++ [x00].

(** The package has no encoder for [WriteReq] (the type has
    [UnmarshalBinary] only): its datagrams are given by their layout. *)
Definition WriteReq_wire (w : WriteReq) : bytes :=
  request_wire OpWRQ (W_Filename w) (W_Mode w).

(** The 2-byte code a buffer begins with, if it has two bytes. *)
Definition leading (p : bytes) : option Z :=
  match Read_u16 p with
  | inl (code, _) => Some code
  | inr _ => None
  end.

(** A peer that acknowledges every block: whenever the datagram written
    last is the encoding of a data packet, the read that follows returns
    the acknowledgement of its block number. *)
Definition acknowledges (net : peer) : Prop :=
  forall sent d,
    net (sent ++ [fst (Data_MarshalBinary d)])
    = Receives (Ack_MarshalBinary
                  {| A_Block := D_Block (snd (Data_MarshalBinary d)) |}).

(** Such a peer: it answers a datagram with opcode Ack and the third and
    fourth byte of the datagram. *)
Definition ack_peer : peer :=
  fun sent =>
    match last sent [] with
    | _ :: _ :: hi :: lo :: _ => Receives (Write_u16 OpAck ++ [hi; lo])
    | _ => ReadTimesOut
    end.

(** The peer whose answers never arrive. *)
Definition silent_peer : peer := fun _ => ReadTimesOut.

(** The data packet number [k] (from 0) of the payload [p], as a datagram,
    when the block counter was [b] before the first. *)
Definition block_datagram (b : Z) (p : bytes) (k : nat) : bytes :=
  Write_u16 OpData ++ Write_u16 (uint16 (b + 1 + Z.of_nat k))
    ++ firstn 512 (skipn (512 * k) p).

(** All the data packets of the payload [p]. *)
Definition block_datagrams (b : Z) (p : bytes) : list bytes :=
  map (block_datagram b p) (seq 0 (length p / 512 + 1)).

(** The datagram in [buf] is none that moves the session on or ends it:
    an acknowledgement of another block, or neither an acknowledgement nor
    an error packet. *)
Definition stray (st : download) : Prop :=
  let '(ackPkt, err) := Ack_UnmarshalBinary (rd_ackPkt st) (rd_buf st) in
  match err with
  | None => uint16 (A_Block ackPkt) <> D_Block (rd_dataPkt st)
  | Some _ => snd (Err_UnmarshalBinary (rd_errPkt st) (rd_buf st)) <> None
  end.

(** A server with a payload and a retry budget, to run the sessions on. *)
Definition server (payload : bytes) (retries : Z) : TFTPServer :=
  {| WriteAllowed := false; WriteDir := str "/srv/tftp";
     Payload := Some payload; Retries := retries; Timeout := 4 * Second |}.

(** A peer that answers the first datagram it gets with [d] and
    acknowledges block 1 from then on. *)
Definition peer_answering (d : bytes) : peer :=
  fun sent =>
    match sent with
    | [_] => Receives d
    | _ => Receives (Ack_MarshalBinary {| A_Block := 1 |})
    end.

(** The world of an upload in which the dial, the first write and the
    creation of the file succeed. *)
Definition uplink_of (arrivals : list arrival) : uplink :=
  {| up_dial := true; up_ack0 := true; up_create := true;
     up_arrivals := arrivals |}.

(** The datagram the dispatcher answers a write request with when writes
    are not allowed. *)
Definition rejection : bytes :=
  Err_MarshalBinary
    {| E_Error := ErrIllegalOp;
       E_Message := str "We don't accept write requests" |}.

(** The wire layout of a data packet, as a client sends it. *)
Definition Data_wire (block : Z) (payload : bytes) : bytes :=
  Write_u16 OpData ++ Write_u16 block ++ payload.

(** Whether a decoder accepted: its error is [nil]. *)
Definition accepted (err : option error) : bool :=
  match err with None => true | Some _ => false end.

(** How many of the five decoders accept the buffer [p]. *)
Definition accepting (p : bytes) : nat :=
  length
    (filter (fun b : bool => b)
       [accepted (snd (ReadReq_UnmarshalBinary ReadReq0 p));
        accepted (snd (WriteReq_UnmarshalBinary WriteReq0 p));
        accepted (snd (Data_UnmarshalBinary Data0 p));
        accepted (snd (Ack_UnmarshalBinary Ack0 p));
        accepted (snd (Err_UnmarshalBinary Err0 p))]).

(** The actions of the dispatcher that answer a datagram: all but the
    writes on the listening socket. *)
Definition is_WriteTo (a : action) : bool :=
  match a with WriteTo _ _ => true | _ => false end.

(** The datagrams the listening socket gives before its first failure. *)
Fixpoint heard (conn : list listened) : nat :=
  match conn with
  | From _ _ :: conn' => S (heard conn')
  | _ => O
  end.

(** Whether the listening socket fails at some point. *)
Definition listen_fails (conn : list listened) : bool :=
  existsb (fun l => match l with ListenFails => true | From _ _ => false end)
    conn.

(** The server a session is started with. *)
Definition session_server (a : action) : option TFTPServer :=
  match a with
  | GoHandleRead s _ _ | GoHandleWrite s _ _ => Some s
  | _ => None
  end.

(** Data packet [k], [k + 1], ... of the payload [p], written [c] times
    each for the counts [c] of [cs]. *)
Fixpoint transmissions (b : Z) (p : bytes) (k : nat) (cs : list nat)
  : list bytes :=
  match cs with
  | [] => []
  | c :: cs' => repeat (block_datagram b p k) c ++ transmissions b p (S k) cs'
  end.

(** What arrives in an upload whose client sends the data packets [blocks]
    (block number and payload) and whose writes all succeed. *)
Definition arriving (blocks : list (Z * bytes)) : list arrival :=
  map (fun bp => Arrives (Data_wire (fst bp) (snd bp)) true true) blocks.

(** The acknowledgements of the data packets [blocks]. *)
Definition acknowledgements (blocks : list (Z * bytes)) : list bytes :=
  map (fun bp => Ack_MarshalBinary {| A_Block := uint16 (fst bp) |}) blocks.

(** The last datagram an upload read was a short one. *)
Definition wr_short (st : upload) : Prop := wr_n st <> DatagramSize.

(** The variables of [handleWrite] when it enters its loop: block 0 is
    acknowledged and the file is created. *)
Definition wr_var (wrq : WriteReq) : upload :=
  {| wr_sent := [Ack_MarshalBinary Ack0];
     wr_file := Some (W_Filename wrq, []);
     wr_ackPkt := Ack0; wr_errPkt := Err0; wr_dataPkt := Data0;
     wr_buf := make DatagramSize; wr_n := DatagramSize |}.

(** A datagram that is stray for a session waiting for the
    acknowledgement of [block], whatever its buffer holds: an
    acknowledgement of another block, or a datagram with an opcode that is
    neither the one of acknowledgements nor the one of error packets. *)
Definition stray_datagram (block : Z) (d : bytes) : Prop :=
  (exists b rest,
      d = Write_u16 OpAck ++ Write_u16 b ++ rest /\ uint16 b <> block) \/
  (exists c, leading d = Some c /\ c <> OpAck /\ c <> OpErr).

(** A round that brings the session no answer: the read times out, or it
    returns a stray datagram. *)
Definition quiet (block : Z) (r : round) : Prop :=
  match r with
  | ReadTimesOut => True
  | Receives d => stray_datagram block d
  | _ => False
  end.

(** The peer that gives the rounds of [answers] to the first writes of
    the session, one each, and is [net] after them. *)
Definition scripted (answers : list round) (net : peer) : peer :=
  fun sent =>
    match nth_error answers (length sent - 1) with
    | Some r => r
    | None => net sent
    end.

(** * Properties *)

Unset Implicit Arguments.

(** ** Bytes and 16-bit integers *)

Section Bytes.

Lemma byte_to_Z_range b : 0 <= byte_to_Z b < 256.
Proof.
  unfold byte_to_Z. pose proof (Byte.to_N_bounded b). lia.
Qed.

Lemma byte_to_of_Z z : byte_to_Z (byte_of_Z z) = z mod 256.
Proof.
  unfold byte_to_Z, byte_of_Z.
  pose proof (Z.mod_pos_bound z 256 ltac:(lia)) as Hz.
  destruct (Byte.of_N (Z.to_N (z mod 256))) as [b|] eqn:E.
  - apply Byte.to_of_N in E. rewrite E. lia.
  - apply Byte.of_N_None_iff in E. lia.
Qed.

Lemma Read_Write_u16 v rest :
  Read_u16 (Write_u16 v ++ rest) = inl (uint16 v, rest).
Proof.
  unfold Write_u16, uint16. cbn -[Z.mul Z.div Z.modulo].
  rewrite !byte_to_of_Z.
  do 2 f_equal.
  replace 65536 with (256 * 256) by reflexivity.
  rewrite Z.rem_mul_r by lia. lia.
Qed.

Lemma uint16_small v : 0 <= v < 65536 -> uint16 v = v.
Proof. apply Z.mod_small. Qed.

Lemma uint16_idem v : uint16 (uint16 v) = uint16 v.
Proof. unfold uint16. apply Z.mod_mod. lia. Qed.

Lemma uint16_succ v : uint16 (uint16 v + 1) = uint16 (v + 1).
Proof. unfold uint16. apply Zplus_mod_idemp_l. Qed.

End Bytes.

(** ** Strings *)

Section Strings.

Lemma string_eqb_eq a b : string_eqb a b = true <-> a = b.
Proof.
  unfold string_eqb. destruct (list_eq_dec _ a b); split;
    congruence.
Qed.

Lemma string_eqb_refl a : string_eqb a a = true.
Proof. now apply string_eqb_eq. Qed.

Lemma ReadString0_terminated s rest :
  no_NUL s = true ->
  ReadString0 (s ++ x00 :: rest) = (s ++ [x00], rest, None).
Proof.
  induction s as [|b s IH]; intros H; simpl in *.
  - reflexivity.
  - apply andb_prop in H as [Hb Hs].
    apply negb_true_iff in Hb. rewrite Hb, (IH Hs). reflexivity.
Qed.

Lemma TrimRight0_terminated s :
  no_NUL s = true -> TrimRight0 (s ++ [x00]) = s.
Proof.
  induction s as [|b s IH]; intros H; simpl in *.
  - reflexivity.
  - apply andb_prop in H as [Hb Hs]. rewrite (IH Hs).
    apply negb_true_iff in Hb. rewrite Hb. now destruct s.
Qed.

Lemma lower_byte_NUL b : Byte.eqb (lower_byte b) x00 = Byte.eqb b x00.
Proof. destruct b; reflexivity. Qed.

Lemma no_NUL_ToLower s : no_NUL (ToLower s) = no_NUL s.
Proof.
  induction s as [|b s IH]; simpl; [reflexivity|].
  now rewrite lower_byte_NUL, IH.
Qed.

Lemma octet_no_NUL m : ToLower m = str "octet" -> no_NUL m = true.
Proof.
  intros H. rewrite <- no_NUL_ToLower, H. reflexivity.
Qed.

Lemma octet_not_empty m : ToLower m = str "octet" -> m <> [].
Proof. intros H ->. discriminate H. Qed.

End Strings.

(** ** The codec: encoding, then decoding *)

Section Codec.

Lemma ReadReq_roundtrip q q0 :
  no_NUL (R_Filename q) = true ->
  ToLower (R_Mode q) = str "octet" ->
  ReadReq_UnmarshalBinary q0 (ReadReq_MarshalBinary q) = (q, None).
Proof.
  intros Hf Hm. destruct q as [f m]; cbn [R_Filename R_Mode] in *.
  pose proof (octet_no_NUL m Hm) as Hn.
  pose proof (octet_not_empty m Hm) as Hne.
  unfold ReadReq_MarshalBinary, ReadReq_UnmarshalBinary.
  cbn [R_Filename R_Mode].
  assert (string_eqb m [] = false) as ->.
  { destruct (string_eqb m []) eqn:E; [|reflexivity].
    apply string_eqb_eq in E. contradiction. }
  cbn [negb]. rewrite Read_Write_u16.
  change (negb (uint16 OpRRQ =? OpRRQ)) with false. cbv iota.
  change ([x00] ++ m ++ [x00]) with (x00 :: m ++ [x00]).
  rewrite (ReadString0_terminated f _ Hf).
  change (m ++ [x00]) with (m ++ x00 :: []).
  rewrite (ReadString0_terminated m _ Hn).
  cbn [R_Filename R_Mode]. rewrite !TrimRight0_terminated by assumption.
  assert ((len m =? 0) = false) as ->.
  { apply Z.eqb_neq. unfold len. destruct m; [contradiction|]. simpl. lia. }
  rewrite Hm, string_eqb_refl. reflexivity.
Qed.

Lemma WriteReq_decodes_wire w w0 :
  no_NUL (W_Filename w) = true ->
  W_Mode w = str "octet" ->
  WriteReq_UnmarshalBinary w0 (WriteReq_wire w) = (w, None).
Proof.
  intros Hf Hm. destruct w as [f m]; cbn [W_Filename W_Mode] in *.
  subst m. unfold WriteReq_wire, request_wire, WriteReq_UnmarshalBinary.
  cbn [W_Filename W_Mode]. rewrite Read_Write_u16.
  change (negb (uint16 OpWRQ =? OpWRQ)) with false. cbv iota.
  change ([x00] ++ str "octet" ++ [x00]) with (x00 :: str "octet" ++ [x00]).
  rewrite (ReadString0_terminated f _ Hf).
  rewrite TrimRight0_terminated by assumption. reflexivity.
Qed.

Lemma Data_decodes_wire d0 op blk pl :
  (length pl <= 512)%nat ->
  Data_UnmarshalBinary d0 (Write_u16 op ++ Write_u16 blk ++ pl)
  = if uint16 op =? OpData
    then ({| D_Block := uint16 blk; D_Payload := pl |}, None)
    else (d0, Some InvalidDATA).
Proof.
  intros Hl. unfold Data_UnmarshalBinary.
  assert (len (Write_u16 op ++ Write_u16 blk ++ pl) = 4 + len pl) as ->.
  { unfold len. rewrite !length_app. simpl length. lia. }
  assert ((4 + len pl <? 4) || (4 + len pl >? DatagramSize) = false) as ->.
  { unfold len, DatagramSize. apply orb_false_iff. split; lia. }
  change (firstn 2 (Write_u16 op ++ Write_u16 blk ++ pl))
    with (Write_u16 op ++ []).
  change (skipn 2 (Write_u16 op ++ Write_u16 blk ++ pl))
    with (Write_u16 blk ++ pl).
  change (firstn 2 (Write_u16 blk ++ pl)) with (Write_u16 blk ++ []).
  change (skipn 4 (Write_u16 op ++ Write_u16 blk ++ pl)) with pl.
  rewrite !Read_Write_u16.
  now destruct (uint16 op =? OpData).
Qed.

Lemma Data_decodes_encoded d d0 :
  Data_UnmarshalBinary d0 (fst (Data_MarshalBinary d))
  = ({| D_Block := D_Block (snd (Data_MarshalBinary d));
        D_Payload := firstn (Z.to_nat BlockSize) (D_Payload d) |}, None).
Proof.
  unfold Data_MarshalBinary. cbn [fst snd D_Block D_Payload].
  rewrite Data_decodes_wire by apply firstn_le_length.
  change (uint16 OpData =? OpData) with true. cbv iota.
  now rewrite uint16_idem.
Qed.

Lemma Ack_roundtrip a a0 :
  0 <= A_Block a < 65536 ->
  Ack_UnmarshalBinary a0 (Ack_MarshalBinary a) = (a, None).
Proof.
  intros H. destruct a as [b]; cbn [A_Block] in *.
  unfold Ack_MarshalBinary, Ack_UnmarshalBinary. cbn [A_Block].
  rewrite Read_Write_u16.
  change (negb (uint16 OpAck =? OpAck)) with false. cbv iota.
  rewrite <- (app_nil_r (Write_u16 b)), Read_Write_u16.
  now rewrite uint16_small.
Qed.

Lemma Err_roundtrip e e0 :
  0 <= E_Error e < 65536 ->
  no_NUL (E_Message e) = true ->
  Err_UnmarshalBinary e0 (Err_MarshalBinary e) = (e, None).
Proof.
  intros H Hm. destruct e as [c m]; cbn [E_Error E_Message] in *.
  unfold Err_MarshalBinary, Err_UnmarshalBinary.
  cbn [E_Error E_Message]. rewrite Read_Write_u16.
  change (negb (uint16 OpErr =? OpErr)) with false. cbv iota.
  rewrite Read_Write_u16.
  change (m ++ [x00]) with (m ++ x00 :: []).
  rewrite (ReadString0_terminated m _ Hm).
  rewrite TrimRight0_terminated by assumption.
  now rewrite uint16_small.
Qed.

End Codec.

(** C1, as amended.  Encoding and then decoding gives the packet back for
    a read request (file name without NUL, mode octet in any case of
    letters), an acknowledgement and an error packet (message without
    NUL), empty strings included.  For a data packet with at most 512
    bytes to give, zero included, it gives the payload back and the block
    number plus one (modulo 65536), which is the number the encoder leaves
    in the packet it was called on.  A write request has no encoder; the
    decoder gives back the fields of a datagram laid out as a write request
    with mode octet in lower case. *)
Theorem codec_roundtrip :
  (forall q q0,
      no_NUL (R_Filename q) = true ->
      ToLower (R_Mode q) = str "octet" ->
      ReadReq_UnmarshalBinary q0 (ReadReq_MarshalBinary q) = (q, None)) /\
  (forall a a0,
      0 <= A_Block a < 65536 ->
      Ack_UnmarshalBinary a0 (Ack_MarshalBinary a) = (a, None)) /\
  (forall e e0,
      0 <= E_Error e < 65536 ->
      no_NUL (E_Message e) = true ->
      Err_UnmarshalBinary e0 (Err_MarshalBinary e) = (e, None)) /\
  (forall d d0,
      len (D_Payload d) <= BlockSize ->
      Data_UnmarshalBinary d0 (fst (Data_MarshalBinary d))
      = ({| D_Block := uint16 (D_Block d + 1);
            D_Payload := D_Payload d |}, None) /\
      D_Block (snd (Data_MarshalBinary d)) = uint16 (D_Block d + 1)) /\
  (forall w w0,
      no_NUL (W_Filename w) = true ->
      W_Mode w = str "octet" ->
      WriteReq_UnmarshalBinary w0 (WriteReq_wire w) = (w, None)).
Proof.
  split; [exact ReadReq_roundtrip|].
  split; [exact Ack_roundtrip|].
  split; [exact Err_roundtrip|].
  split; [|exact WriteReq_decodes_wire].
  intros d d0 Hl. split; [|reflexivity].
  rewrite Data_decodes_encoded. do 2 f_equal.
  apply firstn_all2. unfold len, BlockSize, DatagramSize in *. lia.
Qed.

Lemma codec_roundtrip_witness :
  ReadReq_UnmarshalBinary ReadReq0
    (ReadReq_MarshalBinary {| R_Filename := []; R_Mode := str "Octet" |})
  = ({| R_Filename := []; R_Mode := str "Octet" |}, None) /\
  Ack_UnmarshalBinary Ack0 (Ack_MarshalBinary {| A_Block := 65535 |})
  = ({| A_Block := 65535 |}, None) /\
  Err_UnmarshalBinary Err0
    (Err_MarshalBinary {| E_Error := ErrIllegalOp; E_Message := [] |})
  = ({| E_Error := ErrIllegalOp; E_Message := [] |}, None) /\
  Data_UnmarshalBinary Data0
    (fst (Data_MarshalBinary {| D_Block := 65535; D_Payload := [] |}))
  = ({| D_Block := 0; D_Payload := [] |}, None) /\
  WriteReq_UnmarshalBinary WriteReq0
    (WriteReq_wire {| W_Filename := []; W_Mode := str "octet" |})
  = ({| W_Filename := []; W_Mode := str "octet" |}, None).
Proof.
  destruct codec_roundtrip as (Hq & Ha & He & Hd & Hw).
  split; [apply Hq; reflexivity|].
  split; [apply Ha; cbn [A_Block]; lia|].
  split; [apply He; [cbn [E_Error]; unfold ErrIllegalOp; lia|reflexivity]|].
  split; [|apply Hw; reflexivity].
  apply (Hd {| D_Block := 65535; D_Payload := [] |} Data0).
  vm_compute. discriminate.
Defined.

(** C1, as the claim states it, fails for a data packet: the encoder
    increments the block number before it writes it, so the packet with
    block number 0 and an empty payload comes back with block number 1. *)
Lemma codec_roundtrip_counterexample :
  let p := {| D_Block := 0; D_Payload := [] |} in
  Data_UnmarshalBinary Data0 (fst (Data_MarshalBinary p))
  = ({| D_Block := 1; D_Payload := [] |}, None) /\
  fst (Data_UnmarshalBinary Data0 (fst (Data_MarshalBinary p))) <> p.
Proof. split; [reflexivity|discriminate]. Qed.

(** C2.  The decoder of read requests accepts the mode octet in any case
    of letters and refuses netascii, MAIL and the empty mode; the decoder
    of write requests refuses these three too, but it compares the mode
    with the lower-case word and so refuses OCTET and Octet as well. *)
Theorem mode_validation :
  let rrq m := snd (ReadReq_UnmarshalBinary ReadReq0
                      (request_wire OpRRQ (str "x") (str m))) in
  let wrq m := snd (WriteReq_UnmarshalBinary WriteReq0
                      (request_wire OpWRQ (str "y.bin") (str m))) in
  (rrq "octet"%string = None /\
   rrq "OCTET"%string = None /\
   rrq "Octet"%string = None /\
   rrq "netascii"%string = Some RRQNotOctet /\
   rrq "MAIL"%string = Some RRQNotOctet /\
   rrq ""%string = Some (RRQMode None)) /\
  (wrq "octet"%string = None /\
   wrq "netascii"%string = Some WRQNotOctet /\
   wrq "MAIL"%string = Some WRQNotOctet /\
   wrq ""%string = Some WRQNotOctet) /\
  (wrq "OCTET"%string = Some WRQNotOctet /\
   wrq "Octet"%string = Some WRQNotOctet).
Proof. vm_compute. repeat split. Qed.

(** C7.  The Data decoder refuses a buffer shorter than 4 bytes or longer
    than 516 with "invalid DATA", refuses a buffer that does not begin
    with the Data opcode, and accepts every other buffer: the payload is
    then all the bytes after the fourth, [len p - 4] of them, whatever
    their number. *)
Theorem Data_decode_bounds d p :
  (len p < 4 \/ DatagramSize < len p ->
   Data_UnmarshalBinary d p = (d, Some InvalidDATA)) /\
  (leading p <> Some OpData ->
   Data_UnmarshalBinary d p = (d, Some InvalidDATA)) /\
  (4 <= len p <= DatagramSize -> leading p = Some OpData ->
   exists block,
     Read_u16 (skipn 2 p) = inl (block, skipn 4 p) /\
     Data_UnmarshalBinary d p
     = ({| D_Block := block; D_Payload := skipn 4 p |}, None) /\
     len (D_Payload (fst (Data_UnmarshalBinary d p))) = len p - 4).
Proof.
  unfold Data_UnmarshalBinary, leading, len, DatagramSize.
  split; [|split].
  - intros H.
    assert ((Z.of_nat (length p) <? 4) || (Z.of_nat (length p) >? 516)
            = true) as ->; [|reflexivity].
    apply orb_true_iff. lia.
  - intros H.
    destruct ((Z.of_nat (length p) <? 4) || (Z.of_nat (length p) >? 516));
      [reflexivity|].
    destruct p as [|hi [|lo rest]]; try reflexivity.
    cbn [Read_u16 firstn skipn] in *.
    destruct (256 * byte_to_Z hi + byte_to_Z lo =? OpData) eqn:E;
      [|reflexivity].
    apply Z.eqb_eq in E. now rewrite E in H.
  - intros Hl H.
    assert ((Z.of_nat (length p) <? 4) || (Z.of_nat (length p) >? 516)
            = false) as ->.
    { apply orb_false_iff. lia. }
    destruct p as [|hi [|lo [|bh [|bl pl]]]]; simpl length in Hl; try lia.
    cbn [Read_u16 firstn skipn] in *.
    assert (256 * byte_to_Z hi + byte_to_Z lo = OpData) as -> by congruence.
    change (negb (OpData =? OpData)) with false. cbv iota.
    eexists. split; [reflexivity|]. split; [reflexivity|].
    cbn [fst D_Payload length]. lia.
Qed.

Lemma Data_decode_bounds_witness :
  Data_UnmarshalBinary Data0 [x00; x03; x00]
  = (Data0, Some InvalidDATA) /\
  Data_UnmarshalBinary Data0 [x00; x04; x00; x01]
  = (Data0, Some InvalidDATA) /\
  exists block,
    Read_u16 (skipn 2 [x00; x03; x00; x07; x61]) = inl (block, [x61]) /\
    Data_UnmarshalBinary Data0 [x00; x03; x00; x07; x61]
    = ({| D_Block := block; D_Payload := [x61] |}, None) /\
    len (D_Payload (fst (Data_UnmarshalBinary Data0
                           [x00; x03; x00; x07; x61]))) = 5 - 4.
Proof.
  split; [|split].
  - apply (proj1 (Data_decode_bounds Data0 [x00; x03; x00])).
    left. vm_compute. reflexivity.
  - apply (proj1 (proj2 (Data_decode_bounds Data0 [x00; x04; x00; x01]))).
    vm_compute. discriminate.
  - apply (proj2 (proj2 (Data_decode_bounds Data0
                           [x00; x03; x00; x07; x61]))).
    + vm_compute. split; discriminate.
    + reflexivity.
Defined.

(** ** The download session *)

Section Download.

Variable net : peer.

Lemma Read_length buf d : length (snd (Read buf d)) = length buf.
Proof.
  unfold Read. cbn [snd].
  rewrite length_app, length_firstn, length_skipn. lia.
Qed.

Lemma Read_fits buf d :
  (length d <= length buf)%nat ->
  snd (Read buf d) = d ++ skipn (length d) buf.
Proof.
  intros H. unfold Read. cbn [snd].
  rewrite Nat.min_l by assumption. now rewrite firstn_all.
Qed.

(** The [switch] reads the two packets and nothing else. *)
Lemma switch_keeps st :
  let st' := snd (switch st) in
  rd_sent st' = rd_sent st /\ rd_dataPkt st' = rd_dataPkt st /\
  rd_buf st' = rd_buf st /\ rd_n st' = rd_n st.
Proof.
  unfold switch.
  destruct (Ack_UnmarshalBinary (rd_ackPkt st) (rd_buf st)) as [a [e|]];
    cbn [rd_set_ackPkt rd_buf rd_errPkt rd_ackPkt rd_dataPkt A_Block].
  - destruct (Err_UnmarshalBinary (rd_errPkt st) (rd_buf st)) as [x [e'|]];
      cbn; auto.
  - destruct (uint16 (A_Block a) =? D_Block (rd_dataPkt st)); cbn; auto.
Qed.

(** The loop [RETRY] writes copies of [data] and nothing else, and
    leaves the data packet and the size of the buffer as they are. *)
Lemma RETRY_keeps data i : forall st,
  let st' := snd (RETRY net data i st) in
  (exists k, rd_sent st' = rd_sent st ++ repeat data k /\ (k <= i)%nat) /\
  rd_dataPkt st' = rd_dataPkt st /\
  length (rd_buf st') = length (rd_buf st).
Proof.
  induction i as [|i IH]; intros st; cbn [RETRY].
  - cbn [snd]. split; [|auto]. exists 0%nat. cbn. now rewrite app_nil_r.
  - assert (forall st1 : download,
               rd_sent st1 = rd_sent st ++ [data] ->
               rd_dataPkt st1 = rd_dataPkt st ->
               length (rd_buf st1) = length (rd_buf st) ->
               let st' := snd (RETRY net data i st1) in
               (exists k, rd_sent st' = rd_sent st ++ repeat data k
                          /\ (k <= S i)%nat) /\
               rd_dataPkt st' = rd_dataPkt st /\
               length (rd_buf st') = length (rd_buf st)) as Hnext.
    { intros st1 Hs Hd Hb. destruct (IH st1) as ((k & Hk & Hle) & Hd' & Hb').
      split; [|split; congruence].
      exists (S k). split; [|lia].
      rewrite Hk, Hs, <- app_assoc. reflexivity. }
    destruct (net (rd_sent st ++ [data])) as [| | |d].
    + cbn [snd]. split; [|auto]. exists 0%nat. cbn.
      rewrite app_nil_r. split; [reflexivity|lia].
    + apply Hnext; reflexivity.
    + cbn [snd rd_Write rd_sent rd_dataPkt rd_buf]. split; [|auto].
      exists 1%nat. split; [reflexivity|lia].
    + pose proof (switch_keeps (rd_Read (rd_Write st data) d))
        as (Hs & Hd & Hb & _).
      assert (length (rd_buf (snd (switch (rd_Read (rd_Write st data) d))))
              = length (rd_buf st)) as Hb'.
      { rewrite Hb. cbn [rd_Read rd_Write rd_buf]. apply Read_length. }
      destruct (switch (rd_Read (rd_Write st data) d)) as [[| e |] st1];
        cbn [snd] in *.
      * split; [|auto]. exists 1%nat. split; [exact Hs|lia].
      * split; [|auto]. exists 1%nat. split; [exact Hs|lia].
      * apply Hnext; assumption.
Qed.

Lemma RETRY_continue data i : forall st,
  fst (RETRY net data i st) = None ->
  rd_n (snd (RETRY net data i st)) = len data.
Proof.
  induction i as [|i IH]; intros st; cbn [RETRY]; [discriminate|].
  destruct (net (rd_sent st ++ [data])) as [| | |d];
    try discriminate; [apply IH|].
  pose proof (switch_keeps (rd_Read (rd_Write st data) d))
    as (_ & _ & _ & Hn).
  destruct (switch (rd_Read (rd_Write st data) d)) as [[| e |] st1];
    cbn [fst snd] in *; try discriminate; [auto|apply IH].
Qed.

(** When no answer ever arrives, the loop writes [data] once for each
    attempt it has and runs out. *)
Lemma RETRY_timeouts data i : forall st,
  (forall h, net h = ReadTimesOut) ->
  fst (RETRY net data i st) = Some ReadExhaustedRetries /\
  rd_sent (snd (RETRY net data i st)) = rd_sent st ++ repeat data i.
Proof.
  induction i as [|i IH]; intros st H; cbn [RETRY].
  - cbn. now rewrite app_nil_r.
  - rewrite H. destruct (IH (rd_Write st data) H) as [He Hs].
    split; [exact He|]. rewrite Hs. cbn [rd_Write rd_sent repeat].
    now rewrite <- app_assoc.
Qed.

(** One attempt that meets a stray datagram. *)
Lemma RETRY_stray data i st d :
  net (rd_sent st ++ [data]) = Receives d ->
  stray (rd_Read (rd_Write st data) d) ->
  fst (switch (rd_Read (rd_Write st data) d)) = EndOfBody /\
  RETRY net data (S i) st
  = RETRY net data i (snd (switch (rd_Read (rd_Write st data) d))).
Proof.
  intros Hnet Hstray. cbn [RETRY]. rewrite Hnet.
  set (st1 := rd_Read (rd_Write st data) d) in *.
  assert (fst (switch st1) = EndOfBody) as E.
  { unfold stray, switch in *.
    destruct (Ack_UnmarshalBinary (rd_ackPkt st1) (rd_buf st1))
      as [a [e|]]; cbn [rd_set_ackPkt rd_buf rd_errPkt rd_ackPkt
                          rd_dataPkt A_Block] in *.
    - destruct (Err_UnmarshalBinary (rd_errPkt st1) (rd_buf st1))
        as [x [e'|]]; cbn [snd fst] in *; [reflexivity|congruence].
    - apply Z.eqb_neq in Hstray. now rewrite Hstray. }
  split; [exact E|].
  destruct (switch st1) as [a st2]. cbn [fst snd] in *. now subst a.
Qed.

(** An attempt whose write succeeds adds [data] to what was written. *)
Lemma RETRY_writes_first data i st :
  net (rd_sent st ++ [data]) <> WriteFails ->
  exists rest,
    rd_sent (snd (RETRY net data (S i) st)) = rd_sent st ++ data :: rest.
Proof.
  intros H. cbn [RETRY].
  destruct (net (rd_sent st ++ [data])) as [| | |d]; [contradiction| | |].
  - destruct (RETRY_keeps data i (rd_Write st data)) as ((k & Hk & _) & _).
    exists (repeat data k). rewrite Hk. cbn [rd_Write rd_sent].
    now rewrite <- app_assoc.
  - exists []. reflexivity.
  - pose proof (switch_keeps (rd_Read (rd_Write st data) d))
      as (Hs & _).
    destruct (switch (rd_Read (rd_Write st data) d)) as [[| e |] st1];
      cbn [snd] in *; try (exists []; exact Hs).
    destruct (RETRY_keeps data i st1) as ((k & Hk & _) & _).
    exists (repeat data k). rewrite Hk, Hs. cbn [rd_Read rd_Write rd_sent].
    now rewrite <- app_assoc.
Qed.

End Download.

(** C4, as the claim states it, fails: the session does retransmit.  With
    a budget of two attempts and a payload of five bytes, the peer answers
    the data packet with the acknowledgement of block 7, and in a second
    run with a datagram of one byte that is no packet at all; both times
    the session writes the data packet a second time, and the
    acknowledgement of block 1 that comes then finishes it. *)
Lemma stray_counterexample :
  let s := server (str "hello") 2 in
  let data := [x00; x03; x00; x01] ++ str "hello" in
  handleRead s true (peer_answering (Ack_MarshalBinary {| A_Block := 7 |}))
    ReadReq0
  = (ReadSendBlocks 1, [data; data]) /\
  handleRead s true (peer_answering [xff]) ReadReq0
  = (ReadSendBlocks 1, [data; data]).
Proof. split; vm_compute; reflexivity. Qed.

(** C5.  When every wait for the acknowledgement times out, a session
    with a budget of [Retries s] attempts writes the first data packet
    (block number 1, the first 512 bytes of the payload) that many times,
    each time the same bytes, and ends with "exhausted retries", nothing
    else written. *)
Theorem dropped_acks s net rrq :
  (forall h, net h = ReadTimesOut) ->
  let first := Write_u16 OpData ++ Write_u16 1
                 ++ firstn 512 (NewReader (Payload s)) in
  handleRead s true net rrq
  = (ReadExhaustedRetries, repeat first (Z.to_nat (Retries s))).
Proof.
  intros H first. unfold handleRead. cbn [negb NEXTPACKET].
  change (rd_n (rd_var s) =? DatagramSize) with true. cbv iota.
  rewrite (surjective_pairing (Data_MarshalBinary _)).
  match goal with |- context [RETRY net ?d ?i ?st] =>
    destruct (RETRY_timeouts net d i st H) as [He Hs];
    destruct (RETRY net d i st) as [e st'] end.
  cbn [fst snd] in *. subst e. rewrite Hs. reflexivity.
Qed.

Lemma dropped_acks_witness :
  handleRead (server (str "hello") 3) true silent_peer ReadReq0
  = (ReadExhaustedRetries,
     repeat (Write_u16 OpData ++ Write_u16 1 ++ firstn 512 (str "hello")) 3).
Proof.
  apply (dropped_acks (server (str "hello") 3) silent_peer ReadReq0).
  intros h. reflexivity.
Defined.

(** ** The download session when every block is acknowledged *)

Section Acknowledged.

Variable net : peer.
Variable s : TFTPServer.
Hypothesis Hack : acknowledges net.
Hypothesis Hretries : 0 < Retries s.

Lemma uint16_add_l x y : uint16 (uint16 x + y) = uint16 (x + y).
Proof. unfold uint16. apply Zplus_mod_idemp_l. Qed.

Lemma Ack_decodes_in_buffer a0 buf blk :
  (4 <= length buf)%nat ->
  Ack_UnmarshalBinary a0
    (snd (Read buf (Ack_MarshalBinary {| A_Block := blk |})))
  = ({| A_Block := uint16 blk |}, None).
Proof.
  intros H. rewrite Read_fits by exact H.
  unfold Ack_MarshalBinary, Ack_UnmarshalBinary. cbn [A_Block].
  rewrite <- !app_assoc, Read_Write_u16.
  change (negb (uint16 OpAck =? OpAck)) with false. cbv iota.
  now rewrite Read_Write_u16.
Qed.

(** The first attempt for a block is answered by its acknowledgement. *)
Lemma RETRY_acked i st d :
  (4 <= length (rd_buf st))%nat ->
  rd_dataPkt st = snd (Data_MarshalBinary d) ->
  exists st',
    RETRY net (fst (Data_MarshalBinary d)) (S i) st = (None, st') /\
    rd_sent st' = rd_sent st ++ [fst (Data_MarshalBinary d)] /\
    rd_dataPkt st' = rd_dataPkt st /\
    rd_n st' = len (fst (Data_MarshalBinary d)) /\
    length (rd_buf st') = length (rd_buf st).
Proof.
  intros Hbuf Hd. cbn [RETRY]. rewrite Hack.
  assert (uint16 (D_Block (snd (Data_MarshalBinary d)))
          = D_Block (snd (Data_MarshalBinary d))) as Hblk
      by (unfold Data_MarshalBinary; cbn [snd D_Block]; apply uint16_idem).
  remember (fst (Data_MarshalBinary d)) as data.
  remember (snd (Data_MarshalBinary d)) as dp.
  unfold switch. cbn [rd_Read rd_Write rd_buf rd_ackPkt].
  rewrite Ack_decodes_in_buffer by exact Hbuf.
  cbn [rd_set_ackPkt rd_ackPkt rd_dataPkt A_Block rd_Read rd_Write].
  rewrite Hd, uint16_idem, Hblk, Z.eqb_refl.
  eexists. split; [reflexivity|].
  cbn [rd_sent rd_dataPkt rd_n rd_buf rd_set_ackPkt rd_Read rd_Write].
  rewrite Read_length. auto.
Qed.

Lemma block_datagram_first b p :
  fst (Data_MarshalBinary {| D_Block := b; D_Payload := p |})
  = block_datagram b p 0.
Proof.
  unfold Data_MarshalBinary, block_datagram. cbn [fst D_Block D_Payload].
  change (Z.to_nat BlockSize) with 512%nat.
  rewrite Nat.mul_0_r, Z.add_0_r. reflexivity.
Qed.

Lemma block_datagram_next b p k :
  block_datagram b p (S k) = block_datagram (uint16 (b + 1)) (skipn 512 p) k.
Proof.
  unfold block_datagram. rewrite skipn_skipn.
  replace (512 * k + 512)%nat with (512 * S k)%nat by lia.
  assert (uint16 (uint16 (b + 1) + 1 + Z.of_nat k)
          = uint16 (b + 1 + Z.of_nat (S k))) as ->; [|reflexivity].
  rewrite <- Z.add_assoc, uint16_add_l. f_equal. lia.
Qed.

Lemma block_datagrams_last b p :
  (length p < 512)%nat -> block_datagrams b p = [block_datagram b p 0].
Proof.
  intros H. unfold block_datagrams. now rewrite Nat.div_small.
Qed.

Lemma block_datagrams_step b p :
  (512 <= length p)%nat ->
  block_datagrams b p
  = block_datagram b p 0
      :: block_datagrams (uint16 (b + 1)) (skipn 512 p).
Proof.
  intros H. unfold block_datagrams. rewrite length_skipn.
  replace (length p / 512)%nat with (S ((length p - 512) / 512)).
  - cbn [Nat.add seq map]. f_equal.
    rewrite <- seq_shift, map_map. apply map_ext. intros k.
    apply block_datagram_next.
  - replace (length p) with (length p - 512 + 1 * 512)%nat at 2 by lia.
    rewrite Nat.div_add by lia. lia.
Qed.

(** From a state at the head of the loop, the session writes the data
    packets of what is left of the payload, one each, and ends with
    "send n blocks". *)
Lemma NEXTPACKET_acked : forall blocks st,
  rd_n st = DatagramSize ->
  (4 <= length (rd_buf st))%nat ->
  (length (D_Payload (rd_dataPkt st)) < blocks)%nat ->
  let b := D_Block (rd_dataPkt st) in
  let p := D_Payload (rd_dataPkt st) in
  fst (NEXTPACKET s net blocks st)
  = ReadSendBlocks (uint16 (b + Z.of_nat (length p / 512 + 1))) /\
  rd_sent (snd (NEXTPACKET s net blocks st))
  = rd_sent st ++ block_datagrams b p.
Proof.
  induction blocks as [|f IH]; intros st Hn Hbuf Hlen b p; [lia|].
  cbn [NEXTPACKET]. rewrite Hn. change (DatagramSize =? DatagramSize) with true.
  cbv iota. rewrite (surjective_pairing (Data_MarshalBinary _)).
  destruct (Z.to_nat (Retries s)) as [|i] eqn:Ei; [lia|].
  destruct (RETRY_acked i
              (rd_set_dataPkt st (snd (Data_MarshalBinary (rd_dataPkt st))))
              (rd_dataPkt st) Hbuf eq_refl)
    as (st2 & -> & Hs & Hd & Hn2 & Hb2).
  cbn [rd_set_dataPkt rd_sent rd_dataPkt rd_buf] in Hs, Hd, Hb2.
  assert (rd_dataPkt st = {| D_Block := b; D_Payload := p |}) as Edp
      by (subst b p; now destruct (rd_dataPkt st)).
  rewrite Edp in Hs, Hd, Hn2. rewrite block_datagram_first in Hs, Hn2.
  unfold Data_MarshalBinary in Hd. cbn [snd D_Block D_Payload] in Hd.
  change (Z.to_nat BlockSize) with 512%nat in Hd.
  assert (rd_n st2 = 4 + Z.of_nat (Nat.min 512 (length p))) as Hn2'.
  { rewrite Hn2. unfold block_datagram, len.
    rewrite !length_app, length_firstn, Nat.mul_0_r.
    unfold Write_u16. cbn [skipn length]. lia. }
  destruct (Nat.lt_ge_cases (length p) 512) as [Hp|Hp].
  - (* the last block *)
    assert ((rd_n st2 =? DatagramSize) = false) as En
        by (apply Z.eqb_neq; unfold DatagramSize; lia).
    assert (NEXTPACKET s net f st2
            = (ReadSendBlocks (D_Block (rd_dataPkt st2)), st2)) as ->
        by (destruct f; cbn [NEXTPACKET]; now rewrite En).
    cbn [fst snd]. rewrite Hs, Hd, block_datagrams_last by exact Hp.
    cbn [D_Block]. rewrite Nat.div_small by exact Hp. auto.
  - (* a full block *)
    assert (rd_n st2 = DatagramSize) as En by (unfold DatagramSize; lia).
    assert (length (D_Payload (rd_dataPkt st2)) < f)%nat as Hf.
    { rewrite Hd. cbn [D_Payload]. rewrite length_skipn.
      subst p. lia. }
    destruct (IH st2 En ltac:(lia) Hf) as [He Hsent].
    rewrite He, Hsent, Hs, Hd. cbn [D_Block D_Payload].
    rewrite (block_datagrams_step b p Hp), <- app_assoc.
    split; [|reflexivity].
    rewrite length_skipn, uint16_add_l. do 2 f_equal.
    replace (length p) with (length p - 512 + 1 * 512)%nat at 2 by lia.
    rewrite Nat.div_add by lia. lia.
Qed.

Lemma block_datagram_decodes b p k :
  Data_UnmarshalBinary Data0 (block_datagram b p k)
  = ({| D_Block := uint16 (b + 1 + Z.of_nat k);
        D_Payload := firstn 512 (skipn (512 * k) p) |}, None).
Proof.
  unfold block_datagram.
  rewrite Data_decodes_wire by apply firstn_le_length.
  change (uint16 OpData =? OpData) with true. cbv iota.
  now rewrite uint16_idem.
Qed.

Lemma block_datagrams_nth b p k :
  (k <= length p / 512)%nat ->
  nth k (block_datagrams b p) [] = block_datagram b p k.
Proof.
  intros H. unfold block_datagrams.
  rewrite (nth_indep _ [] (block_datagram b p 0))
    by (rewrite length_map, length_seq; lia).
  rewrite map_nth, seq_nth by lia. reflexivity.
Qed.

Lemma block_datagrams_length b p :
  length (block_datagrams b p) = (length p / 512 + 1)%nat.
Proof. unfold block_datagrams. now rewrite length_map, length_seq. Qed.

Lemma handleRead_acked rrq :
  let p := NewReader (Payload s) in
  handleRead s true net rrq
  = (ReadSendBlocks (uint16 (Z.of_nat (length p / 512 + 1))),
     block_datagrams 0 p).
Proof.
  intros p. unfold handleRead. cbn [negb].
  destruct (NEXTPACKET_acked (S (length p)) (rd_var s)) as [He Hs].
  - reflexivity.
  - cbn [rd_var rd_buf]. unfold make. rewrite repeat_length.
    unfold DatagramSize. lia.
  - cbn [rd_var rd_dataPkt D_Payload]. subst p. lia.
  - fold p. destruct (NEXTPACKET s net (S (length p)) (rd_var s)) as [e st].
    cbn [fst snd rd_var rd_dataPkt rd_sent D_Block D_Payload] in *.
    fold p in He, Hs. now rewrite He, Hs.
Qed.

End Acknowledged.

Lemma ack_peer_acknowledges : acknowledges ack_peer.
Proof.
  intros sent d. unfold ack_peer. rewrite last_last.
  unfold Data_MarshalBinary, Ack_MarshalBinary.
  cbn [fst snd A_Block D_Block]. unfold Write_u16 at 1 2.
  cbn [app]. reflexivity.
Qed.

(** [handleRead] returns: the bound it gives to the loop [NEXTPACKET] is
    never reached, whatever the peer does. *)
Lemma switch_returns st e :
  fst (switch st) = Return e -> e <> ReadMoreBlocks.
Proof.
  unfold switch.
  destruct (Ack_UnmarshalBinary (rd_ackPkt st) (rd_buf st)) as [a [x|]].
  - destruct (Err_UnmarshalBinary _ _) as [y [x'|]]; cbn [fst];
      intros H; [discriminate H|]. injection H as <-. discriminate.
  - destruct (_ =? _); discriminate.
Qed.

Lemma RETRY_returns net data i : forall st,
  fst (RETRY net data i st) <> Some ReadMoreBlocks.
Proof.
  induction i as [|i IH]; intros st; cbn [RETRY]; [discriminate|].
  destruct (net (rd_sent st ++ [data])) as [| | |d];
    try discriminate; [apply IH|].
  pose proof (switch_returns (rd_Read (rd_Write st data) d)) as H.
  destruct (switch (rd_Read (rd_Write st data) d)) as [[| e |] st1];
    cbn [fst] in *; [discriminate| |apply IH].
  intros E. injection E as ->. now apply (H ReadMoreBlocks).
Qed.

Lemma NEXTPACKET_returns s net : forall blocks st,
  (length (D_Payload (rd_dataPkt st)) < blocks)%nat ->
  fst (NEXTPACKET s net blocks st) <> ReadMoreBlocks.
Proof.
  induction blocks as [|f IH]; intros st Hlen; [lia|].
  cbn [NEXTPACKET]. destruct (rd_n st =? DatagramSize); [|discriminate].
  rewrite (surjective_pairing (Data_MarshalBinary _)).
  match goal with |- context [RETRY net ?d ?i ?st1] =>
    pose proof (RETRY_continue net d i st1) as Hn;
    pose proof (RETRY_keeps net d i st1) as (_ & Hd & _);
    pose proof (RETRY_returns net d i st1) as Hr;
    destruct (RETRY net d i st1) as [[e|] st2] end;
    cbn [fst snd] in *.
  - congruence.
  - specialize (Hn eq_refl).
    cbn [rd_set_dataPkt rd_dataPkt] in Hd.
    unfold Data_MarshalBinary in Hn, Hd. cbn [fst snd D_Block D_Payload] in *.
    change (Z.to_nat BlockSize) with 512%nat in *.
    destruct (rd_n st2 =? DatagramSize) eqn:En.
    + apply IH. rewrite Hd. cbn [D_Payload]. rewrite length_skipn.
      apply Z.eqb_eq in En. rewrite Hn in En. unfold len, DatagramSize in En.
      rewrite !length_app, length_firstn in En. unfold Write_u16 in En.
      cbn [length] in En. lia.
    + destruct f; cbn [NEXTPACKET]; rewrite En; discriminate.
Qed.

Lemma handleRead_returns s dial net rrq :
  fst (handleRead s dial net rrq) <> ReadMoreBlocks.
Proof.
  unfold handleRead. destruct dial; cbn [negb]; [|discriminate].
  pose proof (NEXTPACKET_returns s net (S (length (NewReader (Payload s))))
                (rd_var s) ltac:(cbn; lia)) as H.
  now destruct (NEXTPACKET s net _ (rd_var s)).
Qed.

(** C6.  When every block is acknowledged, a session that serves [N]
    bytes writes [N / 512 + 1] data packets and ends: every one before the
    last carries 512 bytes of the payload, and the last carries the
    [N mod 512] bytes that are left, fewer than 512, none when [N] is a
    multiple of 512. *)
Theorem download_blocks s net rrq :
  0 < Retries s ->
  acknowledges net ->
  let p := NewReader (Payload s) in
  let N := length p in
  let sent := snd (handleRead s true net rrq) in
  let block k := D_Payload (fst (Data_UnmarshalBinary Data0 (nth k sent []))) in
  fst (handleRead s true net rrq)
  = ReadSendBlocks (uint16 (Z.of_nat (N / 512 + 1))) /\
  length sent = (N / 512 + 1)%nat /\
  (forall k, (k <= N / 512)%nat ->
             snd (Data_UnmarshalBinary Data0 (nth k sent [])) = None /\
             block k = firstn 512 (skipn (512 * k) p)) /\
  (forall k, (k < N / 512)%nat -> length (block k) = 512%nat) /\
  length (block (N / 512)%nat) = (N mod 512)%nat /\
  (N mod 512 < 512)%nat /\
  ((N mod 512 = 0)%nat -> block (N / 512)%nat = []).
Proof.
  intros Hr Hack p N sent block. subst sent block.
  rewrite (handleRead_acked net s Hack Hr rrq). fold p N. cbn [fst snd].
  assert (forall k, (k <= N / 512)%nat ->
            Data_UnmarshalBinary Data0 (nth k (block_datagrams 0 p) [])
            = ({| D_Block := uint16 (0 + 1 + Z.of_nat k);
                  D_Payload := firstn 512 (skipn (512 * k) p) |}, None))
    as Hk.
  { intros k Hle. rewrite block_datagrams_nth by exact Hle.
    apply block_datagram_decodes. }
  pose proof (Nat.div_mod_eq N 512) as Hdm.
  pose proof (Nat.mod_upper_bound N 512 ltac:(lia)) as Hm.
  assert (length (firstn 512 (skipn (512 * (N / 512)) p)) = (N mod 512)%nat)
    as Hlast.
  { rewrite length_firstn, length_skipn. fold N. lia. }
  split; [reflexivity|].
  split; [apply block_datagrams_length|].
  split; [intros k Hle; now rewrite Hk|].
  split.
  { intros k Hlt. rewrite Hk by lia. cbn [fst D_Payload].
    rewrite length_firstn, length_skipn. fold N. lia. }
  rewrite Hk by lia. cbn [fst D_Payload].
  split; [exact Hlast|]. split; [exact Hm|].
  intros H0. apply length_zero_iff_nil. now rewrite Hlast.
Qed.

Lemma download_blocks_witness :
  let s := server (make 1024) 1 in
  let sent := snd (handleRead s true ack_peer ReadReq0) in
  let block k := D_Payload (fst (Data_UnmarshalBinary Data0 (nth k sent []))) in
  fst (handleRead s true ack_peer ReadReq0) = ReadSendBlocks 3 /\
  length sent = 3%nat /\
  length (block 0%nat) = 512%nat /\ length (block 1%nat) = 512%nat /\
  block 2%nat = [].
Proof.
  intros s sent block.
  destruct (download_blocks s ack_peer ReadReq0 eq_refl ack_peer_acknowledges)
    as (He & Hl & _ & Hfull & _ & _ & Hlast).
  split; [exact He|]. split; [exact Hl|].
  split; [apply (Hfull 0%nat); vm_compute; lia|].
  split; [apply (Hfull 1%nat); vm_compute; lia|].
  apply Hlast. reflexivity.
Defined.

(** C9.  When every block is acknowledged, the data packet number [k]
    (from 0) of a session has block number [(k + 1) mod 65536]: the first
    has 1, each has one more than the one before, and the one after block
    65535 has 0; the encoder computes it so.  The session writes its
    [N / 512 + 1] packets whether the numbers wrap or not. *)
Theorem block_numbers s net rrq :
  0 < Retries s ->
  acknowledges net ->
  let N := length (NewReader (Payload s)) in
  let sent := snd (handleRead s true net rrq) in
  let number k := D_Block (fst (Data_UnmarshalBinary Data0 (nth k sent []))) in
  length sent = (N / 512 + 1)%nat /\
  (forall k, (k <= N / 512)%nat -> number k = uint16 (Z.of_nat k + 1)) /\
  number 0%nat = 1 /\
  (forall k, (S k <= N / 512)%nat -> number (S k) = uint16 (number k + 1)) /\
  (forall k, (S k <= N / 512)%nat -> number k = 65535 -> number (S k) = 0) /\
  (forall d, D_Block (snd (Data_MarshalBinary d)) = uint16 (D_Block d + 1)) /\
  (forall d, D_Block d = 65535 -> D_Block (snd (Data_MarshalBinary d)) = 0).
Proof.
  intros Hr Hack N sent number. subst sent number.
  rewrite (handleRead_acked net s Hack Hr rrq). fold N. cbn [snd].
  set (p := NewReader (Payload s)) in *.
  assert (forall k, (k <= N / 512)%nat ->
            D_Block (fst (Data_UnmarshalBinary Data0
                            (nth k (block_datagrams 0 p) [])))
            = uint16 (Z.of_nat k + 1)) as Hk.
  { intros k Hle. rewrite block_datagrams_nth by exact Hle.
    rewrite block_datagram_decodes. cbn [fst D_Block]. f_equal. lia. }
  assert (forall k, (S k <= N / 512)%nat ->
            D_Block (fst (Data_UnmarshalBinary Data0
                            (nth (S k) (block_datagrams 0 p) [])))
            = uint16 (D_Block (fst (Data_UnmarshalBinary Data0
                                      (nth k (block_datagrams 0 p) []))) + 1))
    as Hstep.
  { intros k Hle. rewrite !Hk by lia. rewrite uint16_add_l. f_equal. lia. }
  split; [apply block_datagrams_length|].
  split; [exact Hk|].
  split; [rewrite Hk by lia; reflexivity|].
  split; [exact Hstep|].
  split; [intros k Hle E; rewrite Hstep, E by exact Hle; reflexivity|].
  split; [reflexivity|].
  intros d E. unfold Data_MarshalBinary. cbn [snd D_Block]. now rewrite E.
Qed.

Lemma block_numbers_witness :
  let s := server (make 33554432) 1 in
  let sent := snd (handleRead s true ack_peer ReadReq0) in
  let number k := D_Block (fst (Data_UnmarshalBinary Data0 (nth k sent []))) in
  length sent = Z.to_nat 65537 /\
  number 0%nat = 1 /\
  number (Z.to_nat 65534) = 65535 /\
  number (Z.to_nat 65535) = 0 /\
  number (Z.to_nat 65536) = 1.
Proof.
  intros s sent number.
  destruct (block_numbers s ack_peer ReadReq0 eq_refl ack_peer_acknowledges)
    as (Hl & Hk & H0 & _).
  subst number. cbv beta in *. fold sent in Hl, Hk, H0.
  assert (length (NewReader (Payload s)) = Z.to_nat 33554432) as E.
  { unfold s, server, NewReader, Payload, make. apply repeat_length. }
  rewrite E in Hl, Hk.
  assert (Z.to_nat 33554432 / 512 = Z.to_nat 65536)%nat as D.
  { apply Nat2Z.inj. rewrite Nat2Z.inj_div, !Z2Nat.id by lia. reflexivity. }
  rewrite D in Hl, Hk.
  split; [rewrite Hl; lia|].
  split; [exact H0|].
  split; [rewrite Hk by lia; rewrite Z2Nat.id by lia; reflexivity|].
  split; [rewrite Hk by lia; rewrite Z2Nat.id by lia; reflexivity|].
  rewrite Hk by lia; rewrite Z2Nat.id by lia; reflexivity.
Defined.

(** ** The defaults of the dispatcher *)

(** The sessions [Serve] starts get the server after [Serve_defaults]:
    their retry budget is the configured one, or 10 when none is
    configured, and never 0. *)
Lemma Serve_defaults_budget s :
  0 <= Retries s ->
  0 < Retries (Serve_defaults s) /\
  Retries (Serve_defaults s) = (if Retries s =? 0 then 10 else Retries s) /\
  Payload (Serve_defaults s) = Payload s /\
  WriteAllowed (Serve_defaults s) = WriteAllowed s.
Proof.
  intros H. unfold Serve_defaults.
  destruct (Retries s =? 0) eqn:E; cbn [Timeout Retries];
    destruct (Timeout s =? 0); cbn [Retries Payload WriteAllowed];
    try apply Z.eqb_neq in E; repeat split; lia.
Qed.

(** ** The upload session *)

Section Upload.

(** A buffer of the right length that begins with the Data opcode
    decodes as a data packet, whatever follows. *)
Lemma Data_decodes_leading d0 p :
  4 <= len p <= DatagramSize ->
  leading p = Some OpData ->
  snd (Data_UnmarshalBinary d0 p) = None /\
  D_Payload (fst (Data_UnmarshalBinary d0 p)) = skipn 4 p.
Proof.
  unfold Data_UnmarshalBinary, leading, len, DatagramSize. intros Hl H.
  assert ((Z.of_nat (length p) <? 4) || (Z.of_nat (length p) >? 516)
          = false) as ->.
  { apply orb_false_iff. lia. }
  destruct p as [|hi [|lo [|bh [|bl pl]]]]; simpl length in Hl; try lia.
  cbn [Read_u16 firstn skipn] in *.
  assert (256 * byte_to_Z hi + byte_to_Z lo = OpData) as -> by congruence.
  change (negb (OpData =? OpData)) with false. cbv iota. auto.
Qed.

(** A buffer that begins with the Data opcode is no error packet. *)
Lemma Err_refuses_Data e0 p :
  leading p = Some OpData ->
  Err_UnmarshalBinary e0 p = (e0, Some InvalidError).
Proof.
  unfold leading, Err_UnmarshalBinary.
  destruct (Read_u16 p) as [[code r]|]; [|discriminate].
  intros H. injection H as ->. reflexivity.
Qed.

(** The loop writes acknowledgements after those written before. *)
Lemma receive_sent : forall arrivals st,
  exists rest, wr_sent (snd (receive arrivals st)) = wr_sent st ++ rest.
Proof.
  induction arrivals as [|a arrivals IH]; intros st; cbn [receive];
    (destruct (wr_n st =? DatagramSize);
     [|exists []; cbn [snd]; now rewrite app_nil_r]).
  - exists []. cbn [snd]. now rewrite app_nil_r.
  - destruct a as [|d w k];
      [exists []; cbn [snd]; now rewrite app_nil_r|].
    destruct (Read (wr_buf st) d) as [n buf].
    destruct (Err_UnmarshalBinary (wr_errPkt st) buf) as [errPkt [e|]];
      [|exists []; cbn [snd wr_sent]; now rewrite app_nil_r].
    cbn [wr_dataPkt wr_sent wr_file wr_ackPkt wr_errPkt wr_buf wr_n].
    destruct (Data_UnmarshalBinary (wr_dataPkt st) buf) as [dataPkt [e'|]];
      [exists []; cbn [snd wr_sent]; now rewrite app_nil_r|].
    destruct (slice_to (D_Payload dataPkt) (n - 4)) as [block|];
      [|exists []; cbn [snd wr_sent]; now rewrite app_nil_r].
    destruct w; cbn [negb];
      [|exists []; cbn [snd wr_sent]; now rewrite app_nil_r].
    destruct k; cbn [negb];
      [|exists []; cbn [snd wr_sent]; now rewrite app_nil_r].
    match goal with |- context [receive arrivals ?st1] =>
      destruct (IH st1) as [rest Hrest] end.
    cbn [wr_sent] in Hrest. rewrite Hrest, <- app_assoc. eauto.
Qed.

(** A session whose dial and first write succeed has written the
    acknowledgement of block 0 before anything else. *)
Lemma handleWrite_acks_first s env wrq :
  up_dial env = true -> up_ack0 env = true ->
  exists rest,
    wr_sent (snd (handleWrite s env wrq))
    = Ack_MarshalBinary {| A_Block := 0 |} :: rest.
Proof.
  intros Hd Ha. unfold handleWrite. rewrite Hd, Ha. cbn [negb].
  destruct (up_create env); cbn [negb].
  - match goal with |- context [receive ?a ?st1] =>
      destruct (receive_sent a st1) as [rest Hrest] end.
    rewrite Hrest. cbn [wr_sent app]. eauto.
  - cbn [snd wr_sent app]. eauto.
Qed.

(** A datagram shorter than four bytes, read into a buffer that
    begins with the Data opcode, makes the loop panic. *)
Lemma receive_short st d w a arrivals :
  wr_n st = DatagramSize ->
  length (wr_buf st) = 516%nat ->
  (length d < 4)%nat ->
  leading (snd (Read (wr_buf st) d)) = Some OpData ->
  fst (receive (Arrives d w a :: arrivals) st) = WritePanic.
Proof.
  intros Hn Hb Hd Hlead. cbn [receive]. rewrite Hn.
  change (DatagramSize =? DatagramSize) with true. cbv iota.
  pose proof (Read_length (wr_buf st) d) as Hlen.
  assert (fst (Read (wr_buf st) d) = Z.of_nat (length d)) as En
      by (unfold Read; cbn [fst]; lia).
  destruct (Read (wr_buf st) d) as [n buf]. cbn [fst snd] in *.
  rewrite (Err_refuses_Data _ _ Hlead).
  cbn [wr_dataPkt wr_sent wr_file wr_ackPkt wr_errPkt wr_buf wr_n].
  destruct (Data_decodes_leading (wr_dataPkt st) buf) as [Hok _];
    [unfold len, DatagramSize; lia|exact Hlead|].
  destruct (Data_UnmarshalBinary (wr_dataPkt st) buf) as [dataPkt e].
  cbn [snd] in Hok. subst e.
  unfold slice_to.
  assert ((n - 4 <? 0) = true) as -> by (apply Z.ltb_lt; lia).
  reflexivity.
Qed.

End Upload.

(** One turn of the loop of the upload session on a buffer that begins
    with the Data opcode after the read, all writes succeeding: the packet
    is the one the decoder makes of the whole buffer. *)
Lemma receive_whole_buffer st d rest path written :
  wr_n st = DatagramSize ->
  length (wr_buf st) = 516%nat ->
  wr_file st = Some (path, written) ->
  leading (snd (Read (wr_buf st) d)) = Some OpData ->
  4 <= fst (Read (wr_buf st) d) ->
  exists st1,
    receive (Arrives d true true :: rest) st = receive rest st1 /\
    wr_sent st1
    = wr_sent st
        ++ [Ack_MarshalBinary
              {| A_Block :=
                   D_Block (fst (Data_UnmarshalBinary (wr_dataPkt st)
                                   (snd (Read (wr_buf st) d)))) |}] /\
    wr_file st1
    = Some (path,
            written
              ++ firstn (Z.to_nat (fst (Read (wr_buf st) d) - 4))
                   (skipn 4 (snd (Read (wr_buf st) d)))) /\
    wr_buf st1 = snd (Read (wr_buf st) d) /\
    wr_n st1 = fst (Read (wr_buf st) d).
Proof.
  intros Hn Hb Hf Hlead Hfour. cbn [receive]. rewrite Hn.
  change (DatagramSize =? DatagramSize) with true. cbv iota.
  pose proof (Read_length (wr_buf st) d) as Hlen.
  destruct (Read (wr_buf st) d) as [n buf]. cbn [fst snd] in *.
  rewrite (Err_refuses_Data _ _ Hlead).
  cbn [wr_dataPkt wr_sent wr_file wr_ackPkt wr_errPkt wr_buf wr_n].
  destruct (Data_decodes_leading (wr_dataPkt st) buf) as [Hok Hp];
    [unfold len, DatagramSize; lia|exact Hlead|].
  destruct (Data_UnmarshalBinary (wr_dataPkt st) buf) as [dataPkt e].
  cbn [fst snd] in *. subst e. rewrite Hp. unfold slice_to.
  assert ((n - 4 <? 0) = false) as -> by (apply Z.ltb_ge; lia).
  cbn [negb wr_file wr_sent wr_ackPkt wr_errPkt wr_dataPkt wr_buf wr_n
       D_Block]. rewrite Hf.
  eexists. split; [reflexivity|].
  cbn [wr_sent wr_file wr_buf wr_n]. auto.
Qed.

(** A datagram of fewer than four bytes on such a buffer: the panic,
    before anything is written. *)
Lemma receive_short_state st d w a arrivals :
  wr_n st = DatagramSize ->
  length (wr_buf st) = 516%nat ->
  fst (Read (wr_buf st) d) < 4 ->
  leading (snd (Read (wr_buf st) d)) = Some OpData ->
  fst (receive (Arrives d w a :: arrivals) st) = WritePanic /\
  wr_sent (snd (receive (Arrives d w a :: arrivals) st)) = wr_sent st /\
  wr_file (snd (receive (Arrives d w a :: arrivals) st)) = wr_file st.
Proof.
  intros Hn Hb Hd Hlead. cbn [receive]. rewrite Hn.
  change (DatagramSize =? DatagramSize) with true. cbv iota.
  pose proof (Read_length (wr_buf st) d) as Hlen.
  destruct (Read (wr_buf st) d) as [n buf]. cbn [fst snd] in *.
  rewrite (Err_refuses_Data _ _ Hlead).
  cbn [wr_dataPkt wr_sent wr_file wr_ackPkt wr_errPkt wr_buf wr_n].
  destruct (Data_decodes_leading (wr_dataPkt st) buf) as [Hok _];
    [unfold len, DatagramSize; lia|exact Hlead|].
  destruct (Data_UnmarshalBinary (wr_dataPkt st) buf) as [dataPkt e].
  cbn [snd] in Hok. subst e.
  unfold slice_to.
  assert ((n - 4 <? 0) = true) as -> by (apply Z.ltb_lt; lia).
  cbn [fst snd wr_sent wr_file]. auto.
Qed.

(** C10.  The loop of the upload session decodes the whole buffer, not
    the [n] bytes read into it.  From any state of the loop with the file
    open, when the buffer after the read begins with the Data opcode: the
    buffer has its 516 bytes, those from position [n] on being the ones it
    held before, and the Data decoder accepts it with the 512 bytes after
    the fourth as payload.  If [n] is four or more and the writes succeed,
    the session appends the bytes 4 to [n] of the buffer to the file,
    acknowledges the block number the decoder read from the buffer, and
    goes on with that buffer.  If [n] is less than four, the bytes read
    would be refused by the decoder, but the session does not stop with the
    decoder's error: it panics in [data[:n-4]], with nothing written.  A
    session gets there by a first datagram of just the two bytes of the
    Data opcode, and by an empty datagram after a full data packet it has
    stored and acknowledged. *)
Theorem upload_decodes_whole_buffer :
  (forall st d w a rest path written,
      wr_n st = DatagramSize ->
      length (wr_buf st) = 516%nat ->
      wr_file st = Some (path, written) ->
      let n := fst (Read (wr_buf st) d) in
      let buf := snd (Read (wr_buf st) d) in
      let pkt := fst (Data_UnmarshalBinary (wr_dataPkt st) buf) in
      let run := receive (Arrives d w a :: rest) st in
      leading buf = Some OpData ->
      (length buf = 516%nat /\
       skipn (Z.to_nat n) buf = skipn (Z.to_nat n) (wr_buf st)) /\
      (snd (Data_UnmarshalBinary (wr_dataPkt st) buf) = None /\
       D_Payload pkt = skipn 4 buf /\ length (D_Payload pkt) = 512%nat) /\
      (4 <= n -> w = true -> a = true ->
       exists st1,
         run = receive rest st1 /\
         wr_sent st1
         = wr_sent st ++ [Ack_MarshalBinary {| A_Block := D_Block pkt |}] /\
         wr_file st1
         = Some (path, written ++ firstn (Z.to_nat (n - 4)) (skipn 4 buf)) /\
         wr_buf st1 = buf /\ wr_n st1 = n) /\
      (n < 4 ->
       snd (Data_UnmarshalBinary (wr_dataPkt st) (firstn (Z.to_nat n) buf))
       = Some InvalidDATA /\
       fst run = WritePanic /\
       wr_sent (snd run) = wr_sent st /\ wr_file (snd run) = wr_file st)) /\
  (forall s wrq,
      let run := handleWrite s (uplink_of [Arrives [x00; x03] true true]) wrq in
      fst run = WritePanic /\
      wr_sent (snd run) = [Ack_MarshalBinary Ack0] /\
      wr_file (snd run) = Some (W_Filename wrq, [])) /\
  (forall s wrq,
      let run :=
        handleWrite s
          (uplink_of [Arrives (Data_wire 1 (make 512)) true true;
                      Arrives [] true true]) wrq in
      fst run = WritePanic /\
      wr_sent (snd run) = [Ack_MarshalBinary Ack0;
                           Ack_MarshalBinary {| A_Block := 1 |}] /\
      wr_file (snd run) = Some (W_Filename wrq, make 512)).
Proof.
  split; [|split; intros s wrq; repeat split].
  intros st d w a rest path written Hn Hb Hf n buf pkt run Hlead.
  pose proof (Read_length (wr_buf st) d) as Hlen. fold buf in Hlen.
  rewrite Hb in Hlen.
  destruct (Data_decodes_leading (wr_dataPkt st) buf) as [Hok Hp];
    [unfold len, DatagramSize; lia|exact Hlead|].
  split; [|split; [|split]].
  - split; [exact Hlen|]. subst n buf. unfold Read. cbn [fst snd].
    rewrite Nat2Z.id, skipn_app, length_firstn.
    rewrite (skipn_all2 (firstn _ d)) by (rewrite length_firstn; lia).
    cbn [app]. replace (_ - _)%nat with 0%nat by lia. reflexivity.
  - split; [exact Hok|]. split; [exact Hp|].
    subst pkt. rewrite Hp, length_skipn. lia.
  - intros Hfour -> ->. subst run pkt n buf.
    apply (receive_whole_buffer st d rest path written Hn Hb Hf Hlead Hfour).
  - intros Hshort. split.
    + unfold Data_UnmarshalBinary.
      assert (len (firstn (Z.to_nat n) buf) < 4) as Hl.
      { unfold len. rewrite length_firstn. lia. }
      apply Z.ltb_lt in Hl. now rewrite Hl.
    + subst run. apply receive_short_state; assumption.
Qed.

Lemma upload_decodes_whole_buffer_witness :
  let st := {| wr_sent := [Ack_MarshalBinary Ack0];
               wr_file := Some (str "y.bin", []);
               wr_ackPkt := Ack0; wr_errPkt := Err0; wr_dataPkt := Data0;
               wr_buf := [x00; x03] ++ make 514; wr_n := DatagramSize |} in
  (let run := receive [Arrives [x00] true true] st in
   fst run = WritePanic /\
   wr_sent (snd run) = [Ack_MarshalBinary Ack0] /\
   wr_file (snd run) = Some (str "y.bin", [])) /\
  (exists st1,
      receive [Arrives (Data_wire 7 (str "abc")) true true] st
      = receive [] st1 /\
      wr_sent st1 = [Ack_MarshalBinary Ack0;
                     Ack_MarshalBinary {| A_Block := 7 |}] /\
      wr_file st1 = Some (str "y.bin", str "abc") /\
      wr_buf st1 = Data_wire 7 (str "abc") ++ make 509 /\
      wr_n st1 = 7).
Proof.
  intros st. split.
  - apply (proj1 upload_decodes_whole_buffer st [x00] true true []
             (str "y.bin") []); reflexivity.
  - apply (proj1 upload_decodes_whole_buffer st
             (Data_wire 7 (str "abc")) true true [] (str "y.bin") []);
      try reflexivity.
    vm_compute. discriminate.
Defined.

(** C8.  The upload session gives [os.Create] the file name of the
    request as it stands: with the directory /srv/tftp configured for
    writes, the file of a request for y.bin is y.bin, and the file of a
    request for /etc/motd is /etc/motd; it is created empty. *)
Theorem upload_creates_requested_name :
  let s := server [] 10 in
  let file name :=
    wr_file (snd (handleWrite s (uplink_of [])
                    {| W_Filename := str name; W_Mode := str "octet" |})) in
  WriteDir s = str "/srv/tftp" /\
  file "y.bin"%string = Some (str "y.bin", []) /\
  file "/etc/motd"%string = Some (str "/etc/motd", []).
Proof. repeat split. Qed.

(** For every datagram that decodes as a write request: when writes are
    not allowed the dispatcher writes the error packet with the code for an
    illegal operation to the sender on the listening socket and starts an
    upload session all the same, and that session writes the
    acknowledgement of block 0 first if its dial and its write succeed. *)
Lemma Serve_loop_write_disabled s rrq wrq addr d conn :
  WriteAllowed s = false ->
  let buf := snd (Read (make DatagramSize) d) in
  snd (WriteReq_UnmarshalBinary wrq buf) = None ->
  let wrq' := fst (WriteReq_UnmarshalBinary wrq buf) in
  (exists acts,
      snd (Serve_loop s rrq wrq (From addr d :: conn))
      = WriteTo (Err_MarshalBinary
                   {| E_Error := ErrIllegalOp;
                      E_Message := str "We don't accept write requests" |})
          addr
        :: GoHandleWrite s addr wrq' :: acts) /\
  (forall env,
      up_dial env = true -> up_ack0 env = true ->
      exists rest,
        wr_sent (snd (handleWrite s env wrq'))
        = Ack_MarshalBinary {| A_Block := 0 |} :: rest).
Proof.
  intros Hw buf Hok wrq'. split; [|intros env; apply handleWrite_acks_first].
  cbn [Serve_loop]. fold buf.
  assert (ReadReq_UnmarshalBinary rrq buf = (rrq, Some (InvalidRRQ OpWRQ)))
    as ->.
  { unfold WriteReq_UnmarshalBinary in Hok. unfold ReadReq_UnmarshalBinary.
    destruct (Read_u16 buf) as [[code r]|]; [|discriminate].
    destruct (code =? OpWRQ) eqn:E; [|discriminate].
    apply Z.eqb_eq in E. subst code. reflexivity. }
  subst wrq'. destruct (WriteReq_UnmarshalBinary wrq buf) as [w e].
  cbn [fst snd] in *. subst e. rewrite Hw. cbn [Bool.eqb app].
  destruct (Serve_loop s rrq w conn) as [e acts]. cbn [snd]. eauto.
Qed.

(** C3.  The code at the failing input.  The server does not allow
    writes and gets the write request for y.bin in mode octet.  The
    dispatcher answers with the error packet on the listening socket and
    starts the upload session, and the session runs as if writes were
    allowed: it writes the acknowledgement of block 0 and creates y.bin,
    and when the client sends a data packet it stores and acknowledges
    it. *)
Theorem write_disabled_session_runs :
  let s := server [] 10 in
  let wrq := {| W_Filename := str "y.bin"; W_Mode := str "octet" |} in
  let addr := str "10.0.0.7:4000" in
  WriteAllowed s = false /\
  Serve s (Some [From addr (WriteReq_wire wrq)])
  = (ServeBlocked, [WriteTo rejection addr; GoHandleWrite s addr wrq]) /\
  fst (handleWrite s (uplink_of []) wrq) = WriteBlocked /\
  wr_sent (snd (handleWrite s (uplink_of []) wrq))
  = [Ack_MarshalBinary {| A_Block := 0 |}] /\
  wr_file (snd (handleWrite s (uplink_of []) wrq)) = Some (str "y.bin", []) /\
  (let run := handleWrite s (uplink_of (arriving [(1, str "data")])) wrq in
   fst run = WriteReceived 1 /\
   wr_file (snd run) = Some (str "y.bin", str "data") /\
   wr_sent (snd run) = [Ack_MarshalBinary {| A_Block := 0 |};
                        Ack_MarshalBinary {| A_Block := 1 |}]).
Proof. repeat split. Qed.

(** * More of the package *)

(** ** The decoders and the opcode *)

Lemma ReadReq_accepts p q :
  snd (ReadReq_UnmarshalBinary q p) = None -> leading p = Some OpRRQ.
Proof.
  unfold ReadReq_UnmarshalBinary, leading.
  destruct (Read_u16 p) as [[code r]|]; [|discriminate].
  destruct (code =? OpRRQ) eqn:E; [|discriminate].
  apply Z.eqb_eq in E. now subst.
Qed.

Lemma WriteReq_accepts p w :
  snd (WriteReq_UnmarshalBinary w p) = None -> leading p = Some OpWRQ.
Proof.
  unfold WriteReq_UnmarshalBinary, leading.
  destruct (Read_u16 p) as [[code r]|]; [|discriminate].
  destruct (code =? OpWRQ) eqn:E; [|discriminate].
  apply Z.eqb_eq in E. now subst.
Qed.

Lemma Ack_accepts p a :
  snd (Ack_UnmarshalBinary a p) = None -> leading p = Some OpAck.
Proof.
  unfold Ack_UnmarshalBinary, leading.
  destruct (Read_u16 p) as [[code r]|]; [|discriminate].
  destruct (code =? OpAck) eqn:E; [|discriminate].
  apply Z.eqb_eq in E. now subst.
Qed.

Lemma Err_accepts p e :
  snd (Err_UnmarshalBinary e p) = None -> leading p = Some OpErr.
Proof.
  unfold Err_UnmarshalBinary, leading.
  destruct (Read_u16 p) as [[code r]|]; [|discriminate].
  destruct (code =? OpErr) eqn:E; [|discriminate].
  apply Z.eqb_eq in E. now subst.
Qed.

Lemma Data_accepts p d :
  snd (Data_UnmarshalBinary d p) = None -> leading p = Some OpData.
Proof.
  unfold Data_UnmarshalBinary, leading.
  destruct ((len p <? 4) || (len p >? DatagramSize)); [discriminate|].
  destruct p as [|hi [|lo rest]]; try discriminate.
  cbn [Read_u16 firstn skipn].
  destruct (256 * byte_to_Z hi + byte_to_Z lo =? OpData) eqn:E;
    [|discriminate].
  apply Z.eqb_eq in E. now rewrite E.
Qed.

(** A decoder that refuses on the opcode has not touched its receiver. *)
Lemma ReadReq_refuses p q :
  leading p <> Some OpRRQ ->
  fst (ReadReq_UnmarshalBinary q p) = q /\
  snd (ReadReq_UnmarshalBinary q p) <> None.
Proof.
  unfold ReadReq_UnmarshalBinary, leading.
  destruct (Read_u16 p) as [[code r]|]; [|split; [reflexivity|discriminate]].
  destruct (code =? OpRRQ) eqn:E; [|split; [reflexivity|discriminate]].
  apply Z.eqb_eq in E. subst. now intros [].
Qed.

Lemma WriteReq_refuses p w :
  leading p <> Some OpWRQ ->
  fst (WriteReq_UnmarshalBinary w p) = w /\
  snd (WriteReq_UnmarshalBinary w p) <> None.
Proof.
  unfold WriteReq_UnmarshalBinary, leading.
  destruct (Read_u16 p) as [[code r]|]; [|split; [reflexivity|discriminate]].
  destruct (code =? OpWRQ) eqn:E; [|split; [reflexivity|discriminate]].
  apply Z.eqb_eq in E. subst. now intros [].
Qed.

Lemma Ack_refuses p a :
  leading p <> Some OpAck ->
  fst (Ack_UnmarshalBinary a p) = a /\
  snd (Ack_UnmarshalBinary a p) <> None.
Proof.
  unfold Ack_UnmarshalBinary, leading.
  destruct (Read_u16 p) as [[code r]|]; [|split; [reflexivity|discriminate]].
  destruct (code =? OpAck) eqn:E; [|split; [reflexivity|discriminate]].
  apply Z.eqb_eq in E. subst. now intros [].
Qed.

Lemma Err_refuses p e :
  leading p <> Some OpErr ->
  fst (Err_UnmarshalBinary e p) = e /\
  snd (Err_UnmarshalBinary e p) <> None.
Proof.
  unfold Err_UnmarshalBinary, leading.
  destruct (Read_u16 p) as [[code r]|]; [|split; [reflexivity|discriminate]].
  destruct (code =? OpErr) eqn:E; [|split; [reflexivity|discriminate]].
  apply Z.eqb_eq in E. subst. now intros [].
Qed.

(** X1.  The decoders of read requests, write requests, acknowledgements
    and error packets refuse every buffer that does not begin with their
    own opcode, a buffer of fewer than two bytes included, and leave the
    packet they were called on as it was. *)
Theorem decoders_reject_other_opcodes p :
  (forall q, leading p <> Some OpRRQ ->
             fst (ReadReq_UnmarshalBinary q p) = q /\
             snd (ReadReq_UnmarshalBinary q p) <> None) /\
  (forall w, leading p <> Some OpWRQ ->
             fst (WriteReq_UnmarshalBinary w p) = w /\
             snd (WriteReq_UnmarshalBinary w p) <> None) /\
  (forall a, leading p <> Some OpAck ->
             fst (Ack_UnmarshalBinary a p) = a /\
             snd (Ack_UnmarshalBinary a p) <> None) /\
  (forall e, leading p <> Some OpErr ->
             fst (Err_UnmarshalBinary e p) = e /\
             snd (Err_UnmarshalBinary e p) <> None).
Proof.
  split; [intros q; apply ReadReq_refuses|].
  split; [intros w; apply WriteReq_refuses|].
  split; [intros a; apply Ack_refuses|intros e; apply Err_refuses].
Qed.

Lemma decoders_reject_other_opcodes_witness :
  let p := Ack_MarshalBinary {| A_Block := 7 |} in
  let q := {| R_Filename := str "x"; R_Mode := str "octet" |} in
  let e := {| E_Error := ErrNotFound; E_Message := str "gone" |} in
  (fst (ReadReq_UnmarshalBinary q p) = q /\
   snd (ReadReq_UnmarshalBinary q p) <> None) /\
  (fst (Err_UnmarshalBinary e p) = e /\
   snd (Err_UnmarshalBinary e p) <> None) /\
  (fst (Ack_UnmarshalBinary Ack0 [x00]) = Ack0 /\
   snd (Ack_UnmarshalBinary Ack0 [x00]) <> None).
Proof.
  intros p q e.
  split; [apply (proj1 (decoders_reject_other_opcodes p)); discriminate|].
  split;
    [apply (proj2 (proj2 (proj2 (decoders_reject_other_opcodes p))));
     discriminate|].
  apply (proj1 (proj2 (proj2 (decoders_reject_other_opcodes [x00])))).
  discriminate.
Defined.

(** X2.  No buffer is accepted by two of the five decoders. *)
Theorem decoders_exclusive p : (accepting p <= 1)%nat.
Proof.
  unfold accepting.
  pose proof (ReadReq_accepts p ReadReq0) as Hq.
  pose proof (WriteReq_accepts p WriteReq0) as Hw.
  pose proof (Data_accepts p Data0) as Hd.
  pose proof (Ack_accepts p Ack0) as Ha.
  pose proof (Err_accepts p Err0) as He.
  destruct (snd (ReadReq_UnmarshalBinary ReadReq0 p));
    destruct (snd (WriteReq_UnmarshalBinary WriteReq0 p));
    destruct (snd (Data_UnmarshalBinary Data0 p));
    destruct (snd (Ack_UnmarshalBinary Ack0 p));
    destruct (snd (Err_UnmarshalBinary Err0 p));
    cbn; try lia;
    repeat match goal with
           | H : None = None -> _ |- _ => specialize (H eq_refl)
           end;
    unfold OpRRQ, OpWRQ, OpData, OpAck, OpErr in *; congruence.
Qed.

(** ** Strings without their terminator, packets with more after them *)

Lemma ReadString0_unterminated s :
  no_NUL s = true -> ReadString0 s = (s, [], Some EOF).
Proof.
  induction s as [|b s IH]; intros H; simpl in *; [reflexivity|].
  apply andb_prop in H as [Hb Hs]. apply negb_true_iff in Hb.
  now rewrite Hb, (IH Hs).
Qed.

Lemma TrimRight0_no_NUL s : no_NUL s = true -> TrimRight0 s = s.
Proof.
  induction s as [|b s IH]; intros H; simpl in *; [reflexivity|].
  apply andb_prop in H as [Hb Hs]. apply negb_true_iff in Hb.
  rewrite (IH Hs), Hb. now destruct s.
Qed.

Lemma ReadReq_decodes_layout q0 f m rest :
  no_NUL f = true ->
  ToLower m = str "octet" ->
  ReadReq_UnmarshalBinary q0
    (Write_u16 OpRRQ ++ f ++ x00 :: m ++ x00 :: rest)
  = ({| R_Filename := f; R_Mode := m |}, None).
Proof.
  intros Hf Hm.
  pose proof (octet_no_NUL m Hm) as Hn.
  pose proof (octet_not_empty m Hm) as Hne.
  unfold ReadReq_UnmarshalBinary. rewrite Read_Write_u16.
  change (negb (uint16 OpRRQ =? OpRRQ)) with false. cbv iota.
  rewrite (ReadString0_terminated f _ Hf).
  rewrite (ReadString0_terminated m _ Hn).
  cbn [R_Filename R_Mode]. rewrite !TrimRight0_terminated by assumption.
  assert ((len m =? 0) = false) as ->.
  { apply Z.eqb_neq. unfold len. destruct m; [contradiction|]. simpl. lia. }
  rewrite Hm, string_eqb_refl. reflexivity.
Qed.

Lemma ReadReq_MarshalBinary_layout q :
  R_Mode q <> [] ->
  ReadReq_MarshalBinary q
  = Write_u16 OpRRQ ++ R_Filename q ++ x00 :: R_Mode q ++ [x00].
Proof.
  intros H. unfold ReadReq_MarshalBinary.
  destruct (string_eqb (R_Mode q) []) eqn:E; [|reflexivity].
  apply string_eqb_eq in E. contradiction.
Qed.

Lemma WriteReq_decodes_layout w0 f rest :
  no_NUL f = true ->
  WriteReq_UnmarshalBinary w0
    (Write_u16 OpWRQ ++ f ++ x00 :: str "octet" ++ x00 :: rest)
  = ({| W_Filename := f; W_Mode := str "octet" |}, None).
Proof.
  intros Hf. unfold WriteReq_UnmarshalBinary. rewrite Read_Write_u16.
  change (negb (uint16 OpWRQ =? OpWRQ)) with false. cbv iota.
  rewrite (ReadString0_terminated f _ Hf).
  rewrite TrimRight0_terminated by assumption. reflexivity.
Qed.

Lemma Ack_decodes_layout a0 b rest :
  Ack_UnmarshalBinary a0 (Write_u16 OpAck ++ Write_u16 b ++ rest)
  = ({| A_Block := uint16 b |}, None).
Proof.
  unfold Ack_UnmarshalBinary. rewrite Read_Write_u16.
  change (negb (uint16 OpAck =? OpAck)) with false. cbv iota.
  now rewrite Read_Write_u16.
Qed.

Lemma Err_decodes_layout e0 c m rest :
  no_NUL m = true ->
  Err_UnmarshalBinary e0 (Write_u16 OpErr ++ Write_u16 c ++ m ++ x00 :: rest)
  = ({| E_Error := uint16 c; E_Message := m |}, None).
Proof.
  intros Hm. unfold Err_UnmarshalBinary. rewrite Read_Write_u16.
  change (negb (uint16 OpErr =? OpErr)) with false. cbv iota.
  rewrite Read_Write_u16, (ReadString0_terminated m _ Hm).
  now rewrite TrimRight0_terminated.
Qed.

(** X3.  The encoder of data packets takes the next 512 bytes of its
    reader, or all of them when fewer are left: the datagram has the four
    bytes of the header and these, never more than 516 bytes in all; its
    payload followed by what the reader has left is what the reader had;
    and it is a full datagram exactly when the reader had 512 bytes or
    more. *)
Theorem Data_MarshalBinary_chunk d :
  let data := fst (Data_MarshalBinary d) in
  let d' := snd (Data_MarshalBinary d) in
  len data = 4 + Z.min BlockSize (len (D_Payload d)) /\
  len data <= DatagramSize /\
  skipn 4 data ++ D_Payload d' = D_Payload d /\
  (len data = DatagramSize <-> BlockSize <= len (D_Payload d)).
Proof.
  unfold Data_MarshalBinary. cbn [fst snd D_Block D_Payload].
  change (Z.to_nat BlockSize) with 512%nat.
  assert (len (Write_u16 OpData ++ Write_u16 (uint16 (D_Block d + 1))
                 ++ firstn 512 (D_Payload d))
          = 4 + Z.min BlockSize (len (D_Payload d))) as E.
  { unfold len, BlockSize, DatagramSize.
    rewrite !length_app, length_firstn. unfold Write_u16. cbn [length]. lia. }
  rewrite E. unfold len, BlockSize, DatagramSize in *.
  split; [reflexivity|]. split; [lia|].
  split; [|lia].
  change (skipn 4 (Write_u16 OpData ++ Write_u16 (uint16 (D_Block d + 1))
                     ++ firstn 512 (D_Payload d)))
    with (firstn 512 (D_Payload d)).
  apply firstn_skipn.
Qed.

(** X4.  A read request with an empty mode is encoded with the mode octet,
    so it comes back from the decoder with the mode octet, not the empty
    one. *)
Theorem ReadReq_empty_mode f q0 :
  no_NUL f = true ->
  ReadReq_MarshalBinary {| R_Filename := f; R_Mode := [] |}
  = ReadReq_MarshalBinary {| R_Filename := f; R_Mode := str "octet" |} /\
  ReadReq_UnmarshalBinary q0
    (ReadReq_MarshalBinary {| R_Filename := f; R_Mode := [] |})
  = ({| R_Filename := f; R_Mode := str "octet" |}, None).
Proof.
  intros Hf. split; [reflexivity|].
  change (ReadReq_MarshalBinary {| R_Filename := f; R_Mode := [] |})
    with (Write_u16 OpRRQ ++ f ++ x00 :: str "octet" ++ x00 :: []).
  now apply ReadReq_decodes_layout.
Qed.

Lemma ReadReq_empty_mode_witness :
  ReadReq_MarshalBinary {| R_Filename := str "x"; R_Mode := [] |}
  = ReadReq_MarshalBinary {| R_Filename := str "x"; R_Mode := str "octet" |} /\
  ReadReq_UnmarshalBinary ReadReq0
    (ReadReq_MarshalBinary {| R_Filename := str "x"; R_Mode := [] |})
  = ({| R_Filename := str "x"; R_Mode := str "octet" |}, None).
Proof. apply (ReadReq_empty_mode (str "x") ReadReq0). reflexivity. Defined.

(** X5.  The decoder of read requests wants both terminators: without a
    NUL after the file name it fails on the file name, and without a NUL
    after the mode it fails on the mode.  The decoder of write requests
    does not look at the errors of its reads and accepts a request whose
    mode octet is not terminated. *)
Theorem request_terminators f m q0 w0 :
  no_NUL f = true ->
  no_NUL m = true ->
  snd (ReadReq_UnmarshalBinary q0 (Write_u16 OpRRQ ++ f))
  = Some (RRQFilename EOF) /\
  snd (ReadReq_UnmarshalBinary q0 (Write_u16 OpRRQ ++ f ++ x00 :: m))
  = Some (RRQMode (Some EOF)) /\
  WriteReq_UnmarshalBinary w0 (Write_u16 OpWRQ ++ f ++ x00 :: str "octet")
  = ({| W_Filename := f; W_Mode := str "octet" |}, None).
Proof.
  intros Hf Hm. split; [|split].
  - unfold ReadReq_UnmarshalBinary. rewrite Read_Write_u16.
    change (negb (uint16 OpRRQ =? OpRRQ)) with false. cbv iota.
    now rewrite (ReadString0_unterminated f Hf).
  - unfold ReadReq_UnmarshalBinary. rewrite Read_Write_u16.
    change (negb (uint16 OpRRQ =? OpRRQ)) with false. cbv iota.
    rewrite (ReadString0_terminated f _ Hf).
    now rewrite (ReadString0_unterminated m Hm).
  - unfold WriteReq_UnmarshalBinary. rewrite Read_Write_u16.
    change (negb (uint16 OpWRQ =? OpWRQ)) with false. cbv iota.
    rewrite (ReadString0_terminated f _ Hf).
    rewrite TrimRight0_terminated by assumption. reflexivity.
Qed.

Lemma request_terminators_witness :
  snd (ReadReq_UnmarshalBinary ReadReq0 (Write_u16 OpRRQ ++ str "x"))
  = Some (RRQFilename EOF) /\
  snd (ReadReq_UnmarshalBinary ReadReq0
         (Write_u16 OpRRQ ++ str "x" ++ x00 :: str "octet"))
  = Some (RRQMode (Some EOF)) /\
  WriteReq_UnmarshalBinary WriteReq0
    (Write_u16 OpWRQ ++ str "x" ++ x00 :: str "octet")
  = ({| W_Filename := str "x"; W_Mode := str "octet" |}, None).
Proof.
  apply (request_terminators (str "x") (str "octet") ReadReq0 WriteReq0);
    reflexivity.
Defined.

(** X6.  The decoders of requests, acknowledgements and error packets
    stop at the end of the packet: whatever bytes follow an encoded packet
    in the buffer, they decode the packet. *)
Theorem decoders_ignore_what_follows rest :
  (forall q q0,
      no_NUL (R_Filename q) = true ->
      ToLower (R_Mode q) = str "octet" ->
      ReadReq_UnmarshalBinary q0 (ReadReq_MarshalBinary q ++ rest)
      = (q, None)) /\
  (forall w w0,
      no_NUL (W_Filename w) = true ->
      W_Mode w = str "octet" ->
      WriteReq_UnmarshalBinary w0 (WriteReq_wire w ++ rest) = (w, None)) /\
  (forall a a0,
      0 <= A_Block a < 65536 ->
      Ack_UnmarshalBinary a0 (Ack_MarshalBinary a ++ rest) = (a, None)) /\
  (forall e e0,
      0 <= E_Error e < 65536 ->
      no_NUL (E_Message e) = true ->
      Err_UnmarshalBinary e0 (Err_MarshalBinary e ++ rest) = (e, None)).
Proof.
  split; [|split; [|split]].
  - intros [f m] q0 Hf Hm. cbn [R_Filename R_Mode] in *.
    rewrite ReadReq_MarshalBinary_layout by now apply octet_not_empty.
    cbn [R_Filename R_Mode].
    replace ((Write_u16 OpRRQ ++ f ++ x00 :: m ++ [x00]) ++ rest)
      with (Write_u16 OpRRQ ++ f ++ x00 :: m ++ x00 :: rest)
      by (now rewrite <- !app_assoc; cbn [app]; rewrite <- app_assoc).
    now apply ReadReq_decodes_layout.
  - intros [f m] w0 Hf Hm. cbn [W_Filename W_Mode] in *. subst m.
    unfold WriteReq_wire, request_wire. cbn [W_Filename W_Mode].
    replace ((Write_u16 OpWRQ ++ f ++ [x00] ++ str "octet" ++ [x00]) ++ rest)
      with (Write_u16 OpWRQ ++ f ++ x00 :: str "octet" ++ x00 :: rest)
      by (now rewrite <- !app_assoc).
    now apply WriteReq_decodes_layout.
  - intros [b] a0 H. unfold Ack_MarshalBinary. cbn [A_Block] in *.
    rewrite <- app_assoc, Ack_decodes_layout. now rewrite uint16_small.
  - intros [c m] e0 H Hm. unfold Err_MarshalBinary.
    cbn [E_Error E_Message] in *.
    replace ((Write_u16 OpErr ++ Write_u16 c ++ m ++ [x00]) ++ rest)
      with (Write_u16 OpErr ++ Write_u16 c ++ m ++ x00 :: rest)
      by (now rewrite <- !app_assoc).
    rewrite Err_decodes_layout by exact Hm. now rewrite uint16_small.
Qed.

Lemma decoders_ignore_what_follows_witness :
  ReadReq_UnmarshalBinary ReadReq0
    (ReadReq_MarshalBinary {| R_Filename := str "x"; R_Mode := str "OCTET" |}
       ++ str "more")
  = ({| R_Filename := str "x"; R_Mode := str "OCTET" |}, None) /\
  Ack_UnmarshalBinary Ack0
    (Ack_MarshalBinary {| A_Block := 9 |} ++ str "more")
  = ({| A_Block := 9 |}, None).
Proof.
  split.
  - apply (proj1 (decoders_ignore_what_follows (str "more"))); reflexivity.
  - apply (proj1 (proj2 (proj2 (decoders_ignore_what_follows (str "more"))))).
    cbn [A_Block]. lia.
Defined.

(** ** The dispatcher *)

Lemma make_length n : length (make n) = Z.to_nat n.
Proof. unfold make. apply repeat_length. Qed.

(** The buffer of the dispatcher after a datagram that fits: the datagram
    and zeros after it. *)
Lemma Serve_buffer d :
  len d <= DatagramSize ->
  snd (Read (make DatagramSize) d)
  = d ++ repeat x00 (Z.to_nat DatagramSize - length d).
Proof.
  intros H. rewrite Read_fits
    by (rewrite make_length; unfold len, DatagramSize in *; lia).
  f_equal. unfold make. generalize (Z.to_nat DatagramSize) as n.
  generalize (length d) as k. clear.
  induction k as [|k IH]; intros n; [now rewrite Nat.sub_0_r|].
  destruct n as [|n]; [reflexivity|]. cbn [repeat skipn]. apply IH.
Qed.

Lemma leading_Write_u16 op rest :
  leading (Write_u16 op ++ rest) = Some (uint16 op).
Proof. unfold leading. now rewrite Read_Write_u16. Qed.

Lemma Serve_loop_read s rrq wrq addr d conn q :
  ReadReq_UnmarshalBinary rrq (snd (Read (make DatagramSize) d)) = (q, None) ->
  Serve_loop s rrq wrq (From addr d :: conn)
  = (fst (Serve_loop s q wrq conn),
     GoHandleRead s addr q :: snd (Serve_loop s q wrq conn)).
Proof.
  intros H. cbn [Serve_loop]. rewrite H.
  now destruct (Serve_loop s q wrq conn).
Qed.

(** X7.  A datagram that is an encoded read request (file name without
    NUL, mode octet in any case of letters) and fits the buffer makes the
    dispatcher start one download session, for that request and the
    address the datagram came from, and nothing else; the loop goes on with
    the next datagram. *)
Theorem Serve_starts_download s rrq wrq addr q conn :
  no_NUL (R_Filename q) = true ->
  ToLower (R_Mode q) = str "octet" ->
  len (ReadReq_MarshalBinary q) <= DatagramSize ->
  Serve_loop s rrq wrq (From addr (ReadReq_MarshalBinary q) :: conn)
  = (fst (Serve_loop s q wrq conn),
     GoHandleRead s addr q :: snd (Serve_loop s q wrq conn)).
Proof.
  intros Hf Hm Hl. apply Serve_loop_read. rewrite Serve_buffer by exact Hl.
  destruct q as [f m]. cbn [R_Filename R_Mode] in *.
  rewrite ReadReq_MarshalBinary_layout by now apply octet_not_empty.
  cbn [R_Filename R_Mode].
  match goal with |- context [(?a ++ f ++ x00 :: m ++ [x00]) ++ ?r] =>
    replace ((a ++ f ++ x00 :: m ++ [x00]) ++ r)
      with (a ++ f ++ x00 :: m ++ x00 :: r)
      by (now rewrite <- !app_assoc; cbn [app]; rewrite <- app_assoc) end.
  now apply ReadReq_decodes_layout.
Qed.

Lemma Serve_starts_download_witness :
  let s := server (str "hello") 10 in
  let q := {| R_Filename := str "x"; R_Mode := str "octet" |} in
  Serve_loop s ReadReq0 WriteReq0
    [From (str "10.0.0.7:4000") (ReadReq_MarshalBinary q)]
  = (ServeBlocked, [GoHandleRead s (str "10.0.0.7:4000") q]).
Proof.
  intros s q.
  apply (Serve_starts_download s ReadReq0 WriteReq0 (str "10.0.0.7:4000")
           q []); [reflexivity|reflexivity|vm_compute; discriminate].
Defined.

(** X8.  When writes are allowed, a datagram laid out as a write request
    with mode octet that fits the buffer makes the dispatcher start one
    upload session for it and write nothing on the listening socket. *)
Theorem Serve_starts_upload s rrq wrq addr w conn :
  WriteAllowed s = true ->
  no_NUL (W_Filename w) = true ->
  W_Mode w = str "octet" ->
  len (WriteReq_wire w) <= DatagramSize ->
  Serve_loop s rrq wrq (From addr (WriteReq_wire w) :: conn)
  = (fst (Serve_loop s rrq w conn),
     GoHandleWrite s addr w :: snd (Serve_loop s rrq w conn)).
Proof.
  intros Ha Hf Hm Hl. cbn [Serve_loop]. rewrite Serve_buffer by exact Hl.
  destruct w as [f m]. cbn [W_Filename W_Mode] in *. subst m.
  unfold WriteReq_wire, request_wire. cbn [W_Filename W_Mode].
  match goal with |- context [(?a ++ f ++ [x00] ++ ?o ++ [x00]) ++ ?r] =>
    replace ((a ++ f ++ [x00] ++ o ++ [x00]) ++ r)
      with (a ++ f ++ x00 :: o ++ x00 :: r)
      by (now rewrite <- !app_assoc) end.
  match goal with |- context [ReadReq_UnmarshalBinary rrq ?p] =>
    destruct (ReadReq_refuses p rrq) as [Hq He];
    [rewrite leading_Write_u16; discriminate|];
    destruct (ReadReq_UnmarshalBinary rrq p) as [q' [e|]];
    cbn [fst snd] in *; [subst q'|congruence] end.
  rewrite WriteReq_decodes_layout by exact Hf. rewrite Ha. cbn [Bool.eqb app].
  now destruct (Serve_loop s rrq _ conn).
Qed.

Lemma Serve_starts_upload_witness :
  let s := {| WriteAllowed := true; WriteDir := str "."; Payload := Some [];
              Retries := 10; Timeout := 4 * Second |} in
  let w := {| W_Filename := str "y.bin"; W_Mode := str "octet" |} in
  Serve_loop s ReadReq0 WriteReq0
    [From (str "10.0.0.7:4000") (WriteReq_wire w)]
  = (ServeBlocked, [GoHandleWrite s (str "10.0.0.7:4000") w]).
Proof.
  intros s w.
  apply (Serve_starts_upload s ReadReq0 WriteReq0 (str "10.0.0.7:4000") w []);
    [reflexivity|reflexivity|reflexivity|vm_compute; discriminate].
Defined.

(** X9.  The dispatcher decodes its whole buffer of zeros with the
    datagram at the front: a read request whose mode has no terminator
    starts a download when the datagram is shorter than the buffer,
    although the decoder refuses those bytes by themselves. *)
Theorem Serve_terminates_requests s rrq wrq addr f m conn :
  no_NUL f = true ->
  ToLower m = str "octet" ->
  len (Write_u16 OpRRQ ++ f ++ x00 :: m) < DatagramSize ->
  snd (ReadReq_UnmarshalBinary rrq (Write_u16 OpRRQ ++ f ++ x00 :: m))
  = Some (RRQMode (Some EOF)) /\
  snd (Serve_loop s rrq wrq (From addr (Write_u16 OpRRQ ++ f ++ x00 :: m)
                               :: conn))
  = GoHandleRead s addr {| R_Filename := f; R_Mode := m |}
    :: snd (Serve_loop s {| R_Filename := f; R_Mode := m |} wrq conn).
Proof.
  intros Hf Hm Hl. split.
  - unfold ReadReq_UnmarshalBinary. rewrite Read_Write_u16.
    change (negb (uint16 OpRRQ =? OpRRQ)) with false. cbv iota.
    rewrite (ReadString0_terminated f _ Hf).
    now rewrite (ReadString0_unterminated m (octet_no_NUL m Hm)).
  - rewrite (Serve_loop_read s rrq wrq addr _ conn
               {| R_Filename := f; R_Mode := m |}); [reflexivity|].
    rewrite Serve_buffer by lia.
    destruct (Z.to_nat DatagramSize - length (Write_u16 OpRRQ ++ f ++ x00 :: m))%nat
      as [|k] eqn:E; [unfold len in Hl; lia|].
    cbn [repeat].
    replace ((Write_u16 OpRRQ ++ f ++ x00 :: m) ++ x00 :: repeat x00 k)
      with (Write_u16 OpRRQ ++ f ++ x00 :: m ++ x00 :: repeat x00 k)
      by (now rewrite <- !app_assoc).
    now apply ReadReq_decodes_layout.
Qed.

Lemma Serve_terminates_requests_witness :
  let s := server (str "hello") 10 in
  let d := Write_u16 OpRRQ ++ str "x" ++ x00 :: str "octet" in
  snd (ReadReq_UnmarshalBinary ReadReq0 d) = Some (RRQMode (Some EOF)) /\
  snd (Serve_loop s ReadReq0 WriteReq0 [From (str "10.0.0.7:4000") d])
  = [GoHandleRead s (str "10.0.0.7:4000")
       {| R_Filename := str "x"; R_Mode := str "octet" |}].
Proof.
  intros s d.
  apply (Serve_terminates_requests s ReadReq0 WriteReq0
           (str "10.0.0.7:4000") (str "x") (str "octet") []);
    reflexivity.
Defined.

(** X10.  The loop of [Serve] does not return on account of a datagram:
    what it returns is the error of the listening socket, when the socket
    fails, and until then it answers every datagram it reads with exactly
    one of a download session, an upload session and a "bad request" log
    line.  This is the loop alone, the sessions it starts left to
    themselves: a session that panics, as an upload session can, ends the
    process in Go, and the loop with it. *)
Theorem Serve_loop_goes_on s : forall conn rrq wrq,
  fst (Serve_loop s rrq wrq conn)
  = (if listen_fails conn then ListenError else ServeBlocked) /\
  length (filter (fun a => negb (is_WriteTo a))
            (snd (Serve_loop s rrq wrq conn)))
  = heard conn.
Proof.
  induction conn as [|[|addr d] conn IH]; intros rrq wrq; cbn [Serve_loop];
    [split; reflexivity|split; reflexivity|].
  cbn [listen_fails existsb orb heard]. fold (listen_fails conn).
  destruct (ReadReq_UnmarshalBinary rrq _) as [q [e|]].
  - destruct (WriteReq_UnmarshalBinary wrq _) as [w [e'|]].
    + destruct (IH q w) as [He Hn].
      destruct (Serve_loop s q w conn) as [x acts]. cbn [fst snd] in *.
      split; [exact He|]. cbn. now rewrite Hn.
    + destruct (IH q w) as [He Hn].
      destruct (Serve_loop s q w conn) as [x acts]. cbn [fst snd] in *.
      split; [exact He|].
      destruct (Bool.eqb (WriteAllowed s) false); cbn; now rewrite Hn.
  - destruct (IH q wrq) as [He Hn].
    destruct (Serve_loop s q wrq conn) as [x acts]. cbn [fst snd] in *.
    split; [exact He|]. cbn. now rewrite Hn.
Qed.

(** X11.  The dispatcher writes on the listening socket only to refuse a
    write request: every datagram it writes there is the error packet
    with the code for an illegal operation, and it writes none when writes
    are allowed. *)
Theorem Serve_loop_writes_rejections s : forall conn rrq wrq,
  Forall (fun a => match a with
                   | WriteTo data _ =>
                       data = rejection /\ WriteAllowed s = false
                   | _ => True
                   end)
    (snd (Serve_loop s rrq wrq conn)).
Proof.
  induction conn as [|[|addr d] conn IH]; intros rrq wrq; cbn [Serve_loop];
    [constructor|constructor|].
  destruct (ReadReq_UnmarshalBinary rrq _) as [q [e|]].
  - destruct (WriteReq_UnmarshalBinary wrq _) as [w [e'|]].
    + specialize (IH q w). destruct (Serve_loop s q w conn) as [x acts].
      cbn [snd] in *. now constructor.
    + specialize (IH q w). destruct (Serve_loop s q w conn) as [x acts].
      cbn [snd] in *.
      destruct (WriteAllowed s) eqn:E; cbn [Bool.eqb app].
      * now constructor.
      * constructor; [split; reflexivity|]. now constructor.
  - specialize (IH q wrq). destruct (Serve_loop s q wrq conn) as [x acts].
    cbn [snd] in *. now constructor.
Qed.

Lemma Serve_loop_sessions s : forall conn rrq wrq a s',
  In a (snd (Serve_loop s rrq wrq conn)) ->
  session_server a = Some s' -> s' = s.
Proof.
  induction conn as [|[|addr d] conn IH]; intros rrq wrq a s';
    cbn [Serve_loop]; try (intros []).
  destruct (ReadReq_UnmarshalBinary rrq _) as [q [e|]].
  - destruct (WriteReq_UnmarshalBinary wrq _) as [w [e'|]].
    + specialize (IH q w a s'). destruct (Serve_loop s q w conn) as [x acts].
      cbn [snd In] in *. intros [<-|H]; [discriminate|now apply IH].
    + specialize (IH q w a s'). destruct (Serve_loop s q w conn) as [x acts].
      cbn [snd] in *.
      destruct (Bool.eqb (WriteAllowed s) false); cbn [app In];
        intros H E; repeat destruct H as [<-|H];
        try discriminate; try (cbn in E; congruence); now apply IH.
  - specialize (IH q wrq a s'). destruct (Serve_loop s q wrq conn) as [x acts].
    cbn [snd In] in *. intros [<-|H] E; [cbn in E; congruence|now apply IH].
Qed.

(** X12.  Every session [Serve] starts runs with the defaults filled in: a
    retry budget that is not zero (10 when none was configured), a timeout
    that is not zero (4 seconds when none was configured), and the payload
    of the server, which is not [nil]. *)
Theorem Serve_sessions s conn a s' :
  0 <= Retries s ->
  In a (snd (Serve s conn)) ->
  session_server a = Some s' ->
  s' = Serve_defaults s /\
  0 < Retries s' /\
  Retries s' = (if Retries s =? 0 then 10 else Retries s) /\
  Timeout s' = (if Timeout s =? 0 then 4 * Second else Timeout s) /\
  Timeout s' <> 0 /\
  Payload s' = Payload s /\ Payload s <> None.
Proof.
  intros Hr Hin Hs. unfold Serve in Hin.
  destruct conn as [conn|]; [|destruct Hin].
  destruct (Payload s) as [p|] eqn:Ep; [|destruct Hin].
  apply (Serve_loop_sessions _ _ _ _ _ s' Hin) in Hs. subst s'.
  destruct (Serve_defaults_budget s Hr) as (H1 & H2 & H3 & _).
  split; [reflexivity|]. split; [exact H1|]. split; [exact H2|].
  assert (Timeout (Serve_defaults s)
          = (if Timeout s =? 0 then 4 * Second else Timeout s)) as Ht.
  { unfold Serve_defaults. destruct (Retries s =? 0); cbn [Timeout];
      destruct (Timeout s =? 0); reflexivity. }
  split; [exact Ht|]. split.
  - rewrite Ht. destruct (Timeout s =? 0) eqn:E; [discriminate|].
    now apply Z.eqb_neq.
  - rewrite H3, Ep. split; [reflexivity|discriminate].
Qed.

Lemma Serve_sessions_witness :
  let s := {| WriteAllowed := false; WriteDir := str "."; Payload := Some [];
              Retries := 0; Timeout := 0 |} in
  let q := {| R_Filename := str "x"; R_Mode := str "octet" |} in
  let s' := {| WriteAllowed := false; WriteDir := str ".";
               Payload := Some []; Retries := 10; Timeout := 4 * Second |} in
  s' = Serve_defaults s /\
  0 < Retries s' /\
  Retries s' = 10 /\ Timeout s' = 4 * Second /\ Timeout s' <> 0 /\
  Payload s' = Payload s /\ Payload s <> None.
Proof.
  intros s q s'.
  apply (Serve_sessions s
           (Some [From (str "10.0.0.7:4000") (ReadReq_MarshalBinary q)])
           (GoHandleRead s' (str "10.0.0.7:4000") q) s').
  - cbn [Retries s]. lia.
  - left. reflexivity.
  - reflexivity.
Defined.

Lemma ReadReq_UnmarshalBinary_receiver p q1 q2 :
  snd (ReadReq_UnmarshalBinary q1 p) = snd (ReadReq_UnmarshalBinary q2 p) /\
  (snd (ReadReq_UnmarshalBinary q1 p) = None ->
   fst (ReadReq_UnmarshalBinary q1 p) = fst (ReadReq_UnmarshalBinary q2 p)).
Proof.
  unfold ReadReq_UnmarshalBinary.
  destruct (Read_u16 p) as [[code r]|]; [|split; [reflexivity|discriminate]].
  destruct (negb (code =? OpRRQ)); [split; [reflexivity|discriminate]|].
  destruct (ReadString0 r) as [[filename r1] [e|]];
    [split; [reflexivity|discriminate]|].
  destruct (ReadString0 r1) as [[mode r2] [e|]];
    [split; [reflexivity|discriminate]|].
  cbn [R_Filename R_Mode].
  destruct (len (TrimRight0 mode) =? 0); [split; [reflexivity|discriminate]|].
  destruct (negb (string_eqb _ _)); split; reflexivity || discriminate.
Qed.

Lemma WriteReq_UnmarshalBinary_receiver p w1 w2 :
  snd (WriteReq_UnmarshalBinary w1 p) = snd (WriteReq_UnmarshalBinary w2 p) /\
  (snd (WriteReq_UnmarshalBinary w1 p) = None ->
   fst (WriteReq_UnmarshalBinary w1 p) = fst (WriteReq_UnmarshalBinary w2 p)).
Proof.
  unfold WriteReq_UnmarshalBinary.
  destruct (Read_u16 p) as [[code r]|]; [|split; [reflexivity|discriminate]].
  destruct (negb (code =? OpWRQ)); [split; [reflexivity|discriminate]|].
  destruct (ReadString0 r) as [[filename r1] e].
  destruct (ReadString0 r1) as [[mode r2] e'].
  destruct (negb (string_eqb _ _)); split; reflexivity || discriminate.
Qed.

(** X13.  The dispatcher keeps its two request variables from one
    datagram to the next, but what they hold never shows: the sessions it
    starts and the lines it logs are the same whatever the variables held
    before. *)
Theorem Serve_loop_forgets s : forall conn rrq wrq rrq' wrq',
  Serve_loop s rrq wrq conn = Serve_loop s rrq' wrq' conn.
Proof.
  induction conn as [|[|addr d] conn IH]; intros rrq wrq rrq' wrq';
    cbn [Serve_loop]; try reflexivity.
  set (buf := snd (Read (make DatagramSize) d)).
  destruct (ReadReq_UnmarshalBinary_receiver buf rrq rrq') as [Hq Hq'].
  destruct (ReadReq_UnmarshalBinary rrq buf) as [q [e|]];
    destruct (ReadReq_UnmarshalBinary rrq' buf) as [q' [e0|]];
    cbn [fst snd] in *; try discriminate.
  - destruct (WriteReq_UnmarshalBinary_receiver buf wrq wrq') as [Hw Hw'].
    destruct (WriteReq_UnmarshalBinary wrq buf) as [w [x|]];
      destruct (WriteReq_UnmarshalBinary wrq' buf) as [w' [x0|]];
      cbn [fst snd] in *; try discriminate.
    + injection Hw as ->. now rewrite (IH q w q' w').
    + rewrite (Hw' eq_refl). now rewrite (IH q w' q' w').
  - rewrite (Hq' eq_refl). now rewrite (IH q' wrq q' wrq').
Qed.

(** ** The download session and any peer *)

(** One attempt that is answered by an error packet. *)
Lemma RETRY_error_packet net data i st e :
  0 <= E_Error e < 65536 ->
  no_NUL (E_Message e) = true ->
  len (Err_MarshalBinary e) <= len (rd_buf st) ->
  net (rd_sent st ++ [data]) = Receives (Err_MarshalBinary e) ->
  fst (RETRY net data (S i) st) = Some (ReadReceivedError (E_Message e)) /\
  rd_sent (snd (RETRY net data (S i) st)) = rd_sent st ++ [data].
Proof.
  intros Hc Hm Hl Hnet. cbn [RETRY]. rewrite Hnet.
  set (st1 := rd_Read (rd_Write st data) (Err_MarshalBinary e)).
  assert (exists rest, rd_buf st1 = Err_MarshalBinary e ++ rest) as [rest Hb].
  { eexists. subst st1. cbn [rd_Read rd_Write rd_buf].
    apply Read_fits. unfold len in Hl. lia. }
  assert (rd_sent st1 = rd_sent st ++ [data]) as Hs by reflexivity.
  clearbody st1. destruct e as [c m]. cbn [E_Error E_Message] in *.
  unfold Err_MarshalBinary in Hb. cbn [E_Error E_Message] in Hb.
  replace ((Write_u16 OpErr ++ Write_u16 c ++ m ++ [x00]) ++ rest)
    with (Write_u16 OpErr ++ Write_u16 c ++ m ++ x00 :: rest) in Hb
    by (now rewrite <- !app_assoc).
  unfold switch. rewrite Hb.
  match goal with |- context [Ack_UnmarshalBinary ?a ?p] =>
    destruct (Ack_refuses p a) as [_ Ha];
    [rewrite leading_Write_u16; discriminate|];
    destruct (Ack_UnmarshalBinary a p) as [a' [x|]];
    cbn [snd] in Ha; [|congruence] end.
  cbn [rd_set_ackPkt rd_buf rd_errPkt]. rewrite Hb.
  rewrite Err_decodes_layout by exact Hm.
  cbn [fst snd rd_set_errPkt rd_set_ackPkt rd_errPkt rd_sent E_Message].
  auto.
Qed.

(** X14.  An error packet from the peer (message without NUL, fitting
    the buffer) in answer to a data packet ends the download session at
    once.  From any state at the head of the loop [NEXTPACKET], whatever
    block is next: the session writes the data packet once, logs the
    message of the error packet and returns, whatever attempts and blocks
    are left.  So a session whose first data packet is answered by an
    error packet has written that one datagram and nothing else. *)
Theorem error_packet_ends_download s net e :
  0 < Retries s ->
  0 <= E_Error e < 65536 ->
  no_NUL (E_Message e) = true ->
  (forall blocks st,
      rd_n st = DatagramSize ->
      len (Err_MarshalBinary e) <= len (rd_buf st) ->
      net (rd_sent st ++ [fst (Data_MarshalBinary (rd_dataPkt st))])
      = Receives (Err_MarshalBinary e) ->
      fst (NEXTPACKET s net (S blocks) st)
      = ReadReceivedError (E_Message e) /\
      rd_sent (snd (NEXTPACKET s net (S blocks) st))
      = rd_sent st ++ [fst (Data_MarshalBinary (rd_dataPkt st))]) /\
  (forall rrq,
      len (Err_MarshalBinary e) <= DatagramSize ->
      net [block_datagram 0 (NewReader (Payload s)) 0]
      = Receives (Err_MarshalBinary e) ->
      handleRead s true net rrq
      = (ReadReceivedError (E_Message e),
         [block_datagram 0 (NewReader (Payload s)) 0])).
Proof.
  intros Hr Hc Hm.
  assert (forall blocks st,
             rd_n st = DatagramSize ->
             len (Err_MarshalBinary e) <= len (rd_buf st) ->
             net (rd_sent st ++ [fst (Data_MarshalBinary (rd_dataPkt st))])
             = Receives (Err_MarshalBinary e) ->
             fst (NEXTPACKET s net (S blocks) st)
             = ReadReceivedError (E_Message e) /\
             rd_sent (snd (NEXTPACKET s net (S blocks) st))
             = rd_sent st ++ [fst (Data_MarshalBinary (rd_dataPkt st))])
    as Hloop.
  { intros blocks st Hn Hl Hnet. cbn [NEXTPACKET]. rewrite Hn.
    change (DatagramSize =? DatagramSize) with true. cbv iota.
    rewrite (surjective_pairing (Data_MarshalBinary _)).
    destruct (Z.to_nat (Retries s)) as [|i] eqn:Ei; [lia|].
    destruct (RETRY_error_packet net
                (fst (Data_MarshalBinary (rd_dataPkt st))) i
                (rd_set_dataPkt st (snd (Data_MarshalBinary (rd_dataPkt st))))
                e Hc Hm Hl Hnet) as [He Hs].
    destruct (RETRY net _ (S i) _) as [o st'].
    cbn [fst snd] in *. subst o. auto. }
  split; [exact Hloop|].
  intros rrq Hl Hnet. unfold handleRead. cbn [negb].
  destruct (Hloop (length (NewReader (Payload s))) (rd_var s)) as [He Hs].
  - reflexivity.
  - cbn [rd_var rd_buf]. unfold len. rewrite make_length.
    unfold len, DatagramSize in *. lia.
  - cbn [rd_var rd_sent rd_dataPkt app]. rewrite block_datagram_first.
    exact Hnet.
  - destruct (NEXTPACKET s net _ (rd_var s)) as [x st'].
    cbn [fst snd rd_var rd_sent rd_dataPkt app] in *.
    rewrite block_datagram_first in Hs. now rewrite He, Hs.
Qed.

Lemma error_packet_ends_download_witness :
  let s := server (make 2000) 10 in
  let e := {| E_Error := ErrDiskFull; E_Message := str "disk full" |} in
  handleRead s true (peer_answering (Err_MarshalBinary e)) ReadReq0
  = (ReadReceivedError (str "disk full"), [block_datagram 0 (make 2000) 0]).
Proof.
  intros s e.
  destruct (error_packet_ends_download s
              (peer_answering (Err_MarshalBinary e)) e) as [_ H].
  - reflexivity.
  - cbn [E_Error e]. unfold ErrDiskFull. lia.
  - reflexivity.
  - apply H; [vm_compute; discriminate|reflexivity].
Defined.

Lemma transmissions_next b p : forall cs k,
  transmissions (uint16 (b + 1)) (skipn 512 p) k cs
  = transmissions b p (S k) cs.
Proof.
  induction cs as [|c cs IH]; intros k; cbn [transmissions]; [reflexivity|].
  now rewrite IH, block_datagram_next.
Qed.

Lemma transmissions_length b p R : forall cs k,
  Forall (fun c => c <= R)%nat cs ->
  (length (transmissions b p k cs) <= R * length cs)%nat.
Proof.
  induction cs as [|c cs IH]; intros k H; cbn [transmissions length];
    [lia|].
  inversion H as [|? ? Hc Hcs]; subst.
  rewrite length_app, repeat_length. specialize (IH (S k) Hcs). lia.
Qed.

(** From any state at the head of the loop, whatever the peer does. *)
Lemma NEXTPACKET_transmits s net : forall blocks st,
  let b := D_Block (rd_dataPkt st) in
  let p := D_Payload (rd_dataPkt st) in
  exists cs,
    Forall (fun c => c <= Z.to_nat (Retries s))%nat cs /\
    (rd_n st = DatagramSize -> length cs <= length p / 512 + 1)%nat /\
    (rd_n st <> DatagramSize -> cs = []) /\
    rd_sent (snd (NEXTPACKET s net blocks st))
    = rd_sent st ++ transmissions b p 0 cs.
Proof.
  assert (forall st' : download,
             exists cs,
               Forall (fun c => c <= Z.to_nat (Retries s))%nat cs /\
               (rd_n st' = DatagramSize ->
                length cs <= length (D_Payload (rd_dataPkt st')) / 512 + 1)%nat
               /\ (rd_n st' <> DatagramSize -> cs = []) /\
               rd_sent st'
               = rd_sent st'
                   ++ transmissions (D_Block (rd_dataPkt st'))
                        (D_Payload (rd_dataPkt st')) 0 cs) as Hnone.
  { intros st'. exists []. cbn [transmissions length]. rewrite app_nil_r.
    split; [constructor|]. split; [lia|]. split; reflexivity. }
  induction blocks as [|f IH]; intros st b p; cbn [NEXTPACKET];
    destruct (rd_n st =? DatagramSize) eqn:En;
    try (cbn [snd]; apply Hnone).
  apply Z.eqb_eq in En.
  rewrite (surjective_pairing (Data_MarshalBinary _)).
  assert (rd_dataPkt st = {| D_Block := b; D_Payload := p |}) as Edp
      by (subst b p; now destruct (rd_dataPkt st)).
  rewrite Edp. rewrite block_datagram_first.
  set (st1 := rd_set_dataPkt st _).
  pose proof (RETRY_continue net (block_datagram b p 0)
                (Z.to_nat (Retries s)) st1) as Hn.
  destruct (RETRY_keeps net (block_datagram b p 0)
              (Z.to_nat (Retries s)) st1) as ((k & Hk & Hle) & Hd & _).
  destruct (RETRY net (block_datagram b p 0) (Z.to_nat (Retries s)) st1)
    as [[e|] st2]; cbn [fst snd] in *.
  - exists [k]. cbn [transmissions length]. rewrite app_nil_r.
    split; [repeat constructor; exact Hle|].
    split; [lia|]. split; [congruence|exact Hk].
  - specialize (Hn eq_refl).
    destruct (IH st2) as (cs & Hcs & Hlen & Hnil & Hsent).
    subst st1. cbn [rd_set_dataPkt rd_dataPkt rd_sent] in Hd, Hk.
    unfold Data_MarshalBinary in Hd. cbn [snd D_Block D_Payload] in Hd.
    change (Z.to_nat BlockSize) with 512%nat in Hd.
    rewrite Hd in Hsent, Hlen. cbn [D_Block D_Payload] in Hsent, Hlen.
    exists (k :: cs). split; [now constructor|].
    split; [|split; [congruence|]].
    + intros _. cbn [length].
      destruct (Z.eq_dec (rd_n st2) DatagramSize) as [E|E].
      * specialize (Hlen E). rewrite length_skipn in Hlen.
        rewrite Hn in E. unfold len, block_datagram, DatagramSize in E.
        rewrite !length_app, length_firstn, Nat.mul_0_r in E.
        unfold Write_u16 in E. cbn [skipn length] in E.
        assert (length p / 512 = (length p - 512) / 512 + 1)%nat as Hdiv.
        { replace (length p) with (length p - 512 + 1 * 512)%nat at 1 by lia.
          now rewrite Nat.div_add by lia. }
        lia.
      * rewrite (Hnil E). cbn [length]. lia.
    + rewrite Hsent, Hk. cbn [transmissions].
      now rewrite transmissions_next, <- app_assoc.
Qed.

(** X15.  Whatever the peer answers, and whether the dial succeeds or
    not, a download session writes nothing but data packets of the
    payload: packet 0 some times, then packet 1 some times, and so on in
    this order, each at most as many times as the retry budget, and no
    packet beyond the last one of the payload.  So it writes at most
    budget times [N / 512 + 1] datagrams. *)
Theorem handleRead_transmits s dial net rrq :
  let p := NewReader (Payload s) in
  let R := Z.to_nat (Retries s) in
  exists cs,
    Forall (fun c => c <= R)%nat cs /\
    (length cs <= length p / 512 + 1)%nat /\
    snd (handleRead s dial net rrq) = transmissions 0 p 0 cs /\
    (length (snd (handleRead s dial net rrq)) <= R * (length p / 512 + 1))%nat.
Proof.
  intros p R. unfold handleRead. destruct dial; cbn [negb].
  - destruct (NEXTPACKET_transmits s net (S (length p)) (rd_var s))
      as (cs & Hcs & Hlen & _ & Hsent).
    specialize (Hlen eq_refl). fold p.
    destruct (NEXTPACKET s net (S (length p)) (rd_var s)) as [e st].
    cbn [fst snd rd_var rd_dataPkt rd_sent D_Block D_Payload app] in *.
    fold p in Hlen, Hsent. exists cs.
    split; [exact Hcs|]. split; [exact Hlen|]. split; [exact Hsent|].
    rewrite Hsent.
    pose proof (transmissions_length 0 p R cs 0 Hcs). nia.
  - exists []. cbn. repeat split; auto; lia.
Qed.

(** ** The upload session and its client *)

Lemma Read_fits_pair buf d :
  (length d <= length buf)%nat ->
  Read buf d = (Z.of_nat (length d), d ++ skipn (length d) buf).
Proof.
  intros H. unfold Read. rewrite Nat.min_l by assumption.
  now rewrite firstn_all.
Qed.

Lemma Data_refuses d p :
  leading p <> Some OpData ->
  Data_UnmarshalBinary d p = (d, Some InvalidDATA).
Proof.
  unfold Data_UnmarshalBinary, leading. intros H.
  destruct ((len p <? 4) || (len p >? DatagramSize)); [reflexivity|].
  destruct p as [|hi [|lo rest]]; try reflexivity.
  cbn [Read_u16 firstn skipn] in *.
  destruct (256 * byte_to_Z hi + byte_to_Z lo =? OpData) eqn:E;
    [|reflexivity].
  apply Z.eqb_eq in E. now rewrite E in H.
Qed.

(** Once a short datagram was read the loop is over. *)
Lemma receive_done arrivals st :
  wr_short st ->
  receive arrivals st = (WriteReceived (A_Block (wr_ackPkt st)), st).
Proof.
  unfold wr_short. intros H. apply Z.eqb_neq in H.
  destruct arrivals; cbn [receive]; now rewrite H.
Qed.

(** One data packet from the client, all writes succeeding. *)
Lemma receive_data st blk (pl : bytes) rest path written :
  wr_n st = DatagramSize ->
  length (wr_buf st) = 516%nat ->
  (length pl <= 512)%nat ->
  wr_file st = Some (path, written) ->
  exists st1,
    receive (Arrives (Data_wire blk pl) true true :: rest) st
    = receive rest st1 /\
    wr_sent st1
    = wr_sent st ++ [Ack_MarshalBinary {| A_Block := uint16 blk |}] /\
    wr_file st1 = Some (path, written ++ pl) /\
    wr_ackPkt st1 = {| A_Block := uint16 blk |} /\
    wr_n st1 = 4 + Z.of_nat (length pl) /\
    length (wr_buf st1) = 516%nat.
Proof.
  intros Hn Hb Hl Hf. cbn [receive]. rewrite Hn.
  change (DatagramSize =? DatagramSize) with true. cbv iota.
  assert (length (Data_wire blk pl) = 4 + length pl)%nat as Hd.
  { unfold Data_wire, Write_u16. rewrite !length_app. reflexivity. }
  rewrite Read_fits_pair by lia.
  set (stale := skipn (length (Data_wire blk pl)) (wr_buf st)).
  assert (length stale = 512 - length pl)%nat as Hs
      by (subst stale; rewrite length_skipn; lia).
  rewrite Hd.
  replace (Data_wire blk pl ++ stale)
    with (Write_u16 OpData ++ Write_u16 blk ++ pl ++ stale)
    by (unfold Data_wire; now rewrite <- !app_assoc).
  rewrite Err_refuses_Data by apply leading_Write_u16.
  cbn [wr_dataPkt wr_sent wr_file wr_ackPkt wr_errPkt wr_buf wr_n].
  rewrite Data_decodes_wire by (rewrite length_app; lia).
  change (uint16 OpData =? OpData) with true. cbv iota.
  cbn [D_Block D_Payload]. unfold slice_to.
  assert ((Z.of_nat (4 + length pl) - 4 <? 0) = false) as ->
      by (apply Z.ltb_ge; lia).
  replace (Z.to_nat (Z.of_nat (4 + length pl) - 4)) with (length pl) by lia.
  rewrite firstn_app, firstn_all, Nat.sub_diag, firstn_O, app_nil_r.
  cbn [negb]. rewrite Hf.
  eexists. split; [reflexivity|].
  cbn [wr_sent wr_file wr_ackPkt wr_n wr_buf].
  repeat split; try reflexivity; try lia.
  rewrite !length_app. unfold Write_u16. cbn [length]. lia.
Qed.

(** A run of full data packets. *)
Lemma receive_full_blocks :
  forall (blocks : list (Z * bytes)) rest st path written,
  Forall (fun bp => length (snd bp) = 512%nat) blocks ->
  wr_n st = DatagramSize ->
  length (wr_buf st) = 516%nat ->
  wr_file st = Some (path, written) ->
  exists st1,
    receive (arriving blocks ++ rest) st = receive rest st1 /\
    wr_sent st1 = wr_sent st ++ acknowledgements blocks /\
    wr_file st1 = Some (path, written ++ concat (map snd blocks)) /\
    wr_n st1 = DatagramSize /\
    length (wr_buf st1) = 516%nat.
Proof.
  induction blocks as [|[blk pl] blocks IH];
    intros rest st path written Hfull Hn Hb Hf.
  - exists st. cbn. rewrite !app_nil_r. auto.
  - inversion Hfull as [|? ? Hpl Hrest]; subst. cbn [snd] in Hpl.
    cbn [arriving map app fst snd].
    destruct (receive_data st blk pl (arriving blocks ++ rest) path written
                Hn Hb ltac:(lia) Hf)
      as (st1 & E1 & Hs1 & Hf1 & _ & Hn1 & Hb1).
    destruct (IH rest st1 path (written ++ pl) Hrest
                ltac:(unfold DatagramSize; lia) Hb1 Hf1)
      as (st2 & E2 & Hs2 & Hf2 & Hn2 & Hb2).
    exists st2. unfold arriving in *. rewrite E1, E2.
    split; [reflexivity|]. rewrite Hs2, Hs1, Hf2.
    cbn [acknowledgements map concat fst snd].
    rewrite <- !app_assoc. auto.
Qed.

Lemma handleWrite_enters s arrivals wrq :
  handleWrite s (uplink_of arrivals) wrq = receive arrivals (wr_var wrq).
Proof. reflexivity. Qed.

(** X16.  When the client sends full data packets and then a short one
    (fewer than 512 bytes of payload, none included), and every write
    succeeds, the upload session creates the file, appends the payloads in
    the order they arrive, acknowledges block 0 and then every packet with
    the block number the packet carries, and ends after the short one,
    whatever arrives later.  It does not look at the order of the block
    numbers. *)
Theorem upload_stores_blocks s wrq (blocks : list (Z * bytes)) lb
  (lp : bytes) more :
  Forall (fun bp => length (snd bp) = 512%nat) blocks ->
  (length lp < 512)%nat ->
  let env := uplink_of (arriving (blocks ++ [(lb, lp)]) ++ more) in
  fst (handleWrite s env wrq) = WriteReceived (uint16 lb) /\
  wr_file (snd (handleWrite s env wrq))
  = Some (W_Filename wrq, concat (map snd blocks) ++ lp) /\
  wr_sent (snd (handleWrite s env wrq))
  = Ack_MarshalBinary Ack0 :: acknowledgements (blocks ++ [(lb, lp)]).
Proof.
  intros Hfull Hlp env. subst env. rewrite handleWrite_enters.
  unfold arriving. rewrite map_app, <- app_assoc. fold (arriving blocks).
  destruct (receive_full_blocks blocks
              (map (fun bp => Arrives (Data_wire (fst bp) (snd bp)) true true)
                 [(lb, lp)] ++ more)
              (wr_var wrq) (W_Filename wrq) [] Hfull eq_refl eq_refl eq_refl)
    as (st1 & E1 & Hs1 & Hf1 & Hn1 & Hb1).
  rewrite E1. cbn [map app fst snd].
  destruct (receive_data st1 lb lp more (W_Filename wrq)
              (concat (map snd blocks)) Hn1 Hb1 ltac:(lia) Hf1)
    as (st2 & E2 & Hs2 & Hf2 & Ha2 & Hn2 & Hb2).
  rewrite E2, receive_done by (unfold wr_short, DatagramSize; lia).
  cbn [fst snd]. rewrite Ha2, Hf2, Hs2, Hs1. cbn [A_Block wr_var wr_sent app].
  split; [reflexivity|]. split; [reflexivity|].
  unfold acknowledgements. rewrite map_app. reflexivity.
Qed.

Lemma upload_stores_blocks_witness :
  let s := server [] 10 in
  let wrq := {| W_Filename := str "y.bin"; W_Mode := str "octet" |} in
  let env := uplink_of (arriving ([(1, make 512); (1, make 512)]
                                     ++ [(2, str "end")])
                          ++ [ArrivalFails]) in
  fst (handleWrite s env wrq) = WriteReceived (uint16 2) /\
  wr_file (snd (handleWrite s env wrq))
  = Some (str "y.bin",
          concat (map snd [(1, make 512); (1, make 512)]) ++ str "end") /\
  wr_sent (snd (handleWrite s env wrq))
  = Ack_MarshalBinary Ack0
    :: acknowledgements ([(1, make 512); (1, make 512)] ++ [(2, str "end")]).
Proof.
  intros s wrq.
  apply (upload_stores_blocks s wrq [(1, make 512); (1, make 512)]
           2 (str "end") [ArrivalFails]).
  - repeat constructor.
  - vm_compute. lia.
Defined.

(** X17.  For the upload session a datagram that is neither a data packet
    nor an error packet is the end: when the buffer it was read into
    begins with another opcode (an acknowledgement, a request, anything),
    the session stops with the error of the Data decoder, acknowledges
    nothing and leaves the file as it is, whatever arrives later. *)
Theorem upload_stops_at_other_datagrams st d w a rest :
  wr_n st = DatagramSize ->
  leading (snd (Read (wr_buf st) d)) <> Some OpData ->
  leading (snd (Read (wr_buf st) d)) <> Some OpErr ->
  fst (receive (Arrives d w a :: rest) st) = WriteDecode InvalidDATA /\
  wr_sent (snd (receive (Arrives d w a :: rest) st)) = wr_sent st /\
  wr_file (snd (receive (Arrives d w a :: rest) st)) = wr_file st.
Proof.
  intros Hn Hd He. cbn [receive]. rewrite Hn.
  change (DatagramSize =? DatagramSize) with true. cbv iota.
  destruct (Read (wr_buf st) d) as [n buf]. cbn [snd] in *.
  destruct (Err_refuses buf (wr_errPkt st) He) as [_ Hx].
  destruct (Err_UnmarshalBinary (wr_errPkt st) buf) as [errPkt [x|]];
    cbn [snd] in Hx; [|congruence].
  cbn [wr_dataPkt wr_sent wr_file wr_ackPkt wr_errPkt wr_buf wr_n].
  rewrite (Data_refuses (wr_dataPkt st) buf Hd). auto.
Qed.

Lemma upload_stops_at_other_datagrams_witness :
  let wrq := {| W_Filename := str "y.bin"; W_Mode := str "octet" |} in
  let d := Ack_MarshalBinary {| A_Block := 1 |} in
  fst (receive [Arrives d true true] (wr_var wrq)) = WriteDecode InvalidDATA /\
  wr_sent (snd (receive [Arrives d true true] (wr_var wrq)))
  = [Ack_MarshalBinary Ack0] /\
  wr_file (snd (receive [Arrives d true true] (wr_var wrq)))
  = Some (str "y.bin", []).
Proof.
  intros wrq d.
  apply (upload_stops_at_other_datagrams (wr_var wrq) d true true []);
    [reflexivity|vm_compute; discriminate|vm_compute; discriminate].
Defined.

Lemma receive_acknowledges : forall arrivals st,
  exists acks,
    wr_sent (snd (receive arrivals st)) = wr_sent st ++ acks /\
    Forall (fun d => exists b, d = Ack_MarshalBinary {| A_Block := b |}) acks /\
    (length acks <= length arrivals)%nat.
Proof.
  assert (forall (st : upload) (n : nat),
             exists acks,
               wr_sent st = wr_sent st ++ acks /\
               Forall (fun d => exists b,
                           d = Ack_MarshalBinary {| A_Block := b |}) acks /\
               (length acks <= n)%nat) as Hnone.
  { intros st n. exists []. rewrite app_nil_r.
    split; [reflexivity|]. split; [constructor|cbn; lia]. }
  induction arrivals as [|a arrivals IH]; intros st; cbn [receive];
    (destruct (wr_n st =? DatagramSize); [|apply Hnone]);
    [apply Hnone|].
  destruct a as [|d w k]; [apply Hnone|].
  destruct (Read (wr_buf st) d) as [n buf].
  destruct (Err_UnmarshalBinary (wr_errPkt st) buf) as [errPkt [e|]];
    [|apply (Hnone {| wr_sent := wr_sent st; wr_file := wr_file st;
                      wr_ackPkt := wr_ackPkt st; wr_errPkt := errPkt;
                      wr_dataPkt := wr_dataPkt st; wr_buf := buf;
                      wr_n := n |})].
  cbn [wr_dataPkt wr_sent wr_file wr_ackPkt wr_errPkt wr_buf wr_n].
  destruct (Data_UnmarshalBinary (wr_dataPkt st) buf) as [dataPkt [e'|]];
    [apply (Hnone {| wr_sent := wr_sent st; wr_file := wr_file st;
                     wr_ackPkt := wr_ackPkt st; wr_errPkt := errPkt;
                     wr_dataPkt := dataPkt; wr_buf := buf; wr_n := n |})|].
  destruct (slice_to (D_Payload dataPkt) (n - 4)) as [block|];
    [|apply (Hnone {| wr_sent := wr_sent st; wr_file := wr_file st;
                      wr_ackPkt := wr_ackPkt st; wr_errPkt := errPkt;
                      wr_dataPkt := {| D_Block := D_Block dataPkt;
                                       D_Payload := [] |};
                      wr_buf := buf; wr_n := n |})].
  destruct w; cbn [negb];
    [|apply (Hnone {| wr_sent := wr_sent st; wr_file := wr_file st;
                      wr_ackPkt := wr_ackPkt st; wr_errPkt := errPkt;
                      wr_dataPkt := {| D_Block := D_Block dataPkt;
                                       D_Payload := [] |};
                      wr_buf := buf; wr_n := n |})].
  destruct k; cbn [negb].
  - match goal with |- context [receive arrivals ?st1] =>
      destruct (IH st1) as (acks & Hs & Hacks & Hlen) end.
    cbn [wr_sent] in Hs. eexists. rewrite Hs, <- app_assoc.
    split; [reflexivity|]. split.
    + constructor; [eexists; reflexivity|exact Hacks].
    + cbn [app length]. lia.
  - match goal with |- context [snd (_, ?st1)] =>
      apply (Hnone st1) end.
Qed.

(** X18.  An upload session writes nothing on its socket but
    acknowledgements, whatever arrives and whatever fails: the one of
    block 0, and then at most one for each datagram that arrives. *)
Theorem handleWrite_acknowledges s env wrq :
  Forall (fun d => exists b, d = Ack_MarshalBinary {| A_Block := b |})
    (wr_sent (snd (handleWrite s env wrq))) /\
  (length (wr_sent (snd (handleWrite s env wrq)))
   <= 1 + length (up_arrivals env))%nat.
Proof.
  unfold handleWrite.
  destruct (up_dial env); cbn [negb];
    [|split; [constructor|cbn; lia]].
  destruct (up_ack0 env); cbn [negb];
    [|split; [constructor|cbn; lia]].
  destruct (up_create env); cbn [negb].
  - match goal with |- context [receive _ ?st1] =>
      destruct (receive_acknowledges (up_arrivals env) st1)
        as (acks & Hs & Hacks & Hlen) end.
    rewrite Hs. cbn [wr_sent app length]. split; [|lia].
    constructor; [exists 0; reflexivity|exact Hacks].
  - cbn [snd wr_sent app length]. split; [|lia].
    constructor; [exists 0; reflexivity|constructor].
Qed.

(** X19.  An error packet from the client (message without NUL, fitting
    the buffer) ends the upload session: it logs the message,
    acknowledges nothing and leaves the file as it is. *)
Theorem error_packet_ends_upload st e w a rest :
  wr_n st = DatagramSize ->
  0 <= E_Error e < 65536 ->
  no_NUL (E_Message e) = true ->
  len (Err_MarshalBinary e) <= len (wr_buf st) ->
  let run := receive (Arrives (Err_MarshalBinary e) w a :: rest) st in
  fst run = WriteReceivedError (E_Message e) /\
  wr_sent (snd run) = wr_sent st /\
  wr_file (snd run) = wr_file st.
Proof.
  intros Hn Hc Hm Hl run. subst run. cbn [receive]. rewrite Hn.
  change (DatagramSize =? DatagramSize) with true. cbv iota.
  rewrite Read_fits_pair by (unfold len in Hl; lia).
  destruct e as [c m]. cbn [E_Error E_Message] in *.
  unfold Err_MarshalBinary. cbn [E_Error E_Message].
  match goal with |- context [(?x ++ ?y ++ m ++ [x00]) ++ ?r] =>
    replace ((x ++ y ++ m ++ [x00]) ++ r) with (x ++ y ++ m ++ x00 :: r)
      by (now rewrite <- !app_assoc) end.
  rewrite Err_decodes_layout by exact Hm. cbn [fst snd wr_sent wr_file
                                                E_Message]. auto.
Qed.

Lemma error_packet_ends_upload_witness :
  let wrq := {| W_Filename := str "y.bin"; W_Mode := str "octet" |} in
  let e := {| E_Error := ErrDiskFull; E_Message := str "stop" |} in
  let run := receive [Arrives (Err_MarshalBinary e) true true] (wr_var wrq) in
  fst run = WriteReceivedError (str "stop") /\
  wr_sent (snd run) = [Ack_MarshalBinary Ack0] /\
  wr_file (snd run) = Some (str "y.bin", []).
Proof.
  intros wrq e.
  apply (error_packet_ends_upload (wr_var wrq) e true true []).
  - reflexivity.
  - cbn [E_Error e]. unfold ErrDiskFull. lia.
  - reflexivity.
  - vm_compute. discriminate.
Defined.

(** ** Stray datagrams in a download *)

Lemma Read_leading buf d c :
  (2 <= length buf)%nat ->
  leading d = Some c -> leading (snd (Read buf d)) = Some c.
Proof.
  intros Hb H. unfold Read. cbn [snd].
  destruct d as [|hi [|lo rest]]; try discriminate H.
  destruct buf as [|x [|y buf]]; cbn [length] in Hb; try lia.
  exact H.
Qed.

Lemma Read_front buf x0 x1 x2 x3 rest :
  (4 <= length buf)%nat ->
  exists tail,
    snd (Read buf (x0 :: x1 :: x2 :: x3 :: rest))
    = x0 :: x1 :: x2 :: x3 :: tail.
Proof.
  intros Hb. unfold Read. cbn [snd length].
  destruct buf as [|y0 [|y1 [|y2 [|y3 buf]]]]; cbn [length] in Hb; try lia.
  cbn [length]. rewrite <- !Nat.succ_min_distr. cbn [firstn app].
  eexists. reflexivity.
Qed.

Lemma Read_acknowledgement a0 buf b rest :
  (4 <= length buf)%nat ->
  Ack_UnmarshalBinary a0
    (snd (Read buf (Write_u16 OpAck ++ Write_u16 b ++ rest)))
  = ({| A_Block := uint16 b |}, None).
Proof.
  intros Hb.
  destruct (Read_front buf (byte_of_Z (OpAck / 256)) (byte_of_Z OpAck)
              (byte_of_Z (b / 256)) (byte_of_Z b) rest Hb) as [tail E].
  change (Write_u16 OpAck ++ Write_u16 b ++ rest)
    with (byte_of_Z (OpAck / 256) :: byte_of_Z OpAck
            :: byte_of_Z (b / 256) :: byte_of_Z b :: rest).
  rewrite E. exact (Ack_decodes_layout a0 b tail).
Qed.

(** A stray datagram is stray in every state of the session that waits
    for that block. *)
Lemma stray_datagram_stray st d :
  (4 <= length (rd_buf st))%nat ->
  stray_datagram (D_Block (rd_dataPkt st)) d ->
  stray (rd_Read st d).
Proof.
  intros Hb [(b & rest & -> & Hne)|(c & Hc & Ha & He)];
    unfold stray; cbn [rd_Read rd_buf rd_ackPkt rd_errPkt rd_dataPkt].
  - rewrite Read_acknowledgement by exact Hb. cbn [A_Block].
    now rewrite uint16_idem.
  - pose proof (Read_leading (rd_buf st) d c ltac:(lia) Hc) as Hl.
    destruct (Ack_refuses (snd (Read (rd_buf st) d)) (rd_ackPkt st))
      as [_ Hx]; [rewrite Hl; congruence|].
    destruct (Ack_UnmarshalBinary _ _) as [a' [x|]];
      cbn [snd] in Hx; [|congruence].
    apply Err_refuses. rewrite Hl. congruence.
Qed.

(** An attempt that ends in a timeout or a stray datagram: the loop goes
    on with one attempt less and one more copy written. *)
Lemma RETRY_quiet_step net data i st :
  quiet (D_Block (rd_dataPkt st)) (net (rd_sent st ++ [data])) ->
  (4 <= length (rd_buf st))%nat ->
  exists st',
    RETRY net data (S i) st = RETRY net data i st' /\
    rd_sent st' = rd_sent st ++ [data] /\
    rd_dataPkt st' = rd_dataPkt st /\
    length (rd_buf st') = length (rd_buf st).
Proof.
  intros Hq Hb.
  destruct (net (rd_sent st ++ [data])) as [| | |d] eqn:E;
    cbn [quiet] in Hq; try contradiction.
  - exists (rd_Write st data). cbn [RETRY]. rewrite E. auto.
  - destruct (RETRY_stray net data i st d E) as [_ Heq].
    { apply stray_datagram_stray; assumption. }
    pose proof (switch_keeps (rd_Read (rd_Write st data) d))
      as (Hs & Hd & Hbuf & _).
    eexists. split; [exact Heq|].
    split; [exact Hs|]. split; [exact Hd|].
    rewrite Hbuf. cbn [rd_Read rd_Write rd_buf]. apply Read_length.
Qed.

Lemma RETRY_quiet_run net data : forall m i st,
  (forall j, (j < m)%nat ->
             quiet (D_Block (rd_dataPkt st))
               (net (rd_sent st ++ repeat data (S j)))) ->
  (4 <= length (rd_buf st))%nat ->
  exists st',
    RETRY net data (m + i) st = RETRY net data i st' /\
    rd_sent st' = rd_sent st ++ repeat data m /\
    rd_dataPkt st' = rd_dataPkt st /\
    length (rd_buf st') = length (rd_buf st).
Proof.
  induction m as [|m IH]; intros i st Hq Hb.
  - exists st. cbn [Nat.add repeat]. rewrite app_nil_r. auto.
  - destruct (RETRY_quiet_step net data (m + i) st) as (st1 & E1 & Hs1 & Hd1 & Hb1);
      [apply (Hq 0%nat); lia|exact Hb|].
    destruct (IH i st1) as (st2 & E2 & Hs2 & Hd2 & Hb2).
    + intros j Hj. rewrite Hd1, Hs1, <- app_assoc.
      apply (Hq (S j)). lia.
    + lia.
    + exists st2. cbn [Nat.add]. rewrite E1, E2.
      split; [reflexivity|]. rewrite Hs2, Hs1, <- app_assoc.
      split; [reflexivity|]. split; congruence.
Qed.

(** The session asks its peer about nothing but what it has written and
    the datagram it writes next. *)
Lemma RETRY_ext net1 net2 data : forall i st,
  (forall h, h <> [] -> net1 (rd_sent st ++ h) = net2 (rd_sent st ++ h)) ->
  RETRY net1 data i st = RETRY net2 data i st.
Proof.
  induction i as [|i IH]; intros st H; cbn [RETRY]; [reflexivity|].
  rewrite (H [data]) by discriminate.
  assert (forall st1 : download,
             rd_sent st1 = rd_sent st ++ [data] ->
             RETRY net1 data i st1 = RETRY net2 data i st1) as Hnext.
  { intros st1 Hs. apply IH. intros h Hh. rewrite Hs, <- !app_assoc.
    apply H. discriminate. }
  destruct (net2 (rd_sent st ++ [data])) as [| | |d]; try reflexivity.
  - now apply Hnext.
  - pose proof (switch_keeps (rd_Read (rd_Write st data) d)) as (Hs & _).
    destruct (switch (rd_Read (rd_Write st data) d)) as [[| e |] st1];
      try reflexivity.
    now apply Hnext.
Qed.

Lemma NEXTPACKET_ext s net1 net2 : forall blocks st,
  (forall h, h <> [] -> net1 (rd_sent st ++ h) = net2 (rd_sent st ++ h)) ->
  NEXTPACKET s net1 blocks st = NEXTPACKET s net2 blocks st.
Proof.
  induction blocks as [|f IH]; intros st H; cbn [NEXTPACKET]; [reflexivity|].
  destruct (rd_n st =? DatagramSize); [|reflexivity].
  rewrite (surjective_pairing (Data_MarshalBinary _)).
  rewrite (RETRY_ext net1 net2) by exact H.
  match goal with |- context [RETRY net2 ?d ?i ?st1] =>
    destruct (RETRY_keeps net2 d i st1) as ((k & Hk & _) & _);
    destruct (RETRY net2 d i st1) as [[e|] st2] end;
    [reflexivity|].
  apply IH. intros h Hh. cbn [snd rd_set_dataPkt rd_sent] in Hk.
  rewrite Hk, <- !app_assoc. apply H.
  intros E. apply app_eq_nil in E. now destruct E.
Qed.

Lemma scripted_answers answers net data j r :
  nth_error answers j = Some r ->
  scripted answers net (repeat data (S j)) = r.
Proof.
  intros H. unfold scripted. rewrite repeat_length.
  replace (S j - 1)%nat with j by lia. now rewrite H.
Qed.

Lemma scripted_later answers net sent :
  (length answers < length sent)%nat -> scripted answers net sent = net sent.
Proof.
  intros H. unfold scripted.
  destruct (nth_error answers (length sent - 1)) eqn:E; [|reflexivity].
  assert (length sent - 1 < length answers)%nat
    by (apply nth_error_Some; congruence).
  lia.
Qed.

Section Scripted.

Variable net : peer.
Variable s : TFTPServer.
Hypothesis Hack : acknowledges net.

(** After the acknowledgement of a block, with a peer that is [net] from
    here on: the rest of the session. *)
Lemma NEXTPACKET_after_ack net' blocks st b p :
  0 < Retries s ->
  rd_dataPkt st = {| D_Block := uint16 (b + 1); D_Payload := skipn 512 p |} ->
  rd_n st = len (block_datagram b p 0) ->
  (4 <= length (rd_buf st))%nat ->
  (length p <= blocks)%nat ->
  (forall h, h <> [] -> net' (rd_sent st ++ h) = net (rd_sent st ++ h)) ->
  exists more,
    block_datagrams b p = block_datagram b p 0 :: more /\
    fst (NEXTPACKET s net' blocks st)
    = ReadSendBlocks (uint16 (b + Z.of_nat (length p / 512 + 1))) /\
    rd_sent (snd (NEXTPACKET s net' blocks st)) = rd_sent st ++ more.
Proof.
  intros Hr Hd Hn Hb Hf Hnet.
  assert (rd_n st = 4 + Z.of_nat (Nat.min 512 (length p))) as Hn'.
  { rewrite Hn. unfold block_datagram, len.
    rewrite !length_app, length_firstn, Nat.mul_0_r.
    unfold Write_u16. cbn [skipn length]. lia. }
  destruct (Nat.lt_ge_cases (length p) 512) as [Hp|Hp].
  - assert ((rd_n st =? DatagramSize) = false) as En
        by (apply Z.eqb_neq; unfold DatagramSize; lia).
    assert (NEXTPACKET s net' blocks st
            = (ReadSendBlocks (D_Block (rd_dataPkt st)), st)) as ->
        by (destruct blocks; cbn [NEXTPACKET]; now rewrite En).
    exists []. rewrite block_datagrams_last by exact Hp.
    cbn [fst snd]. rewrite Hd, app_nil_r. cbn [D_Block].
    rewrite Nat.div_small by exact Hp. auto.
  - rewrite (NEXTPACKET_ext s net' net blocks st Hnet).
    destruct (NEXTPACKET_acked net s Hack Hr blocks st) as [He Hs].
    + unfold DatagramSize. lia.
    + exact Hb.
    + rewrite Hd. cbn [D_Payload]. rewrite length_skipn. lia.
    + rewrite Hd in He, Hs. cbn [D_Block D_Payload] in He, Hs.
      exists (block_datagrams (uint16 (b + 1)) (skipn 512 p)).
      split; [now apply block_datagrams_step|]. split; [|exact Hs].
      rewrite He, length_skipn, uint16_add_l. do 2 f_equal.
      replace (length p) with (length p - 512 + 1 * 512)%nat at 2 by lia.
      rewrite Nat.div_add by lia. lia.
Qed.

(** The session with a peer whose first answers are timeouts and stray
    datagrams. *)
Lemma handleRead_scripted rrq answers :
  Forall (quiet 1) answers ->
  let R := Z.to_nat (Retries s) in
  let p := NewReader (Payload s) in
  let first := block_datagram 0 p 0 in
  handleRead s true (scripted answers net) rrq
  = if (R <=? length answers)%nat
    then (ReadExhaustedRetries, repeat first R)
    else (ReadSendBlocks (uint16 (Z.of_nat (length p / 512 + 1))),
          repeat first (length answers) ++ block_datagrams 0 p).
Proof.
  intros Hq R p first. unfold handleRead. cbn [negb NEXTPACKET].
  change (rd_n (rd_var s) =? DatagramSize) with true. cbv iota.
  rewrite (surjective_pairing (Data_MarshalBinary _)).
  set (d0 := rd_dataPkt (rd_var s)).
  set (data := fst (Data_MarshalBinary d0)).
  set (st1 := rd_set_dataPkt (rd_var s) (snd (Data_MarshalBinary d0))).
  set (net' := scripted answers net).
  assert (data = first) as Edata by apply block_datagram_first.
  assert (rd_sent st1 = []) as Es1 by reflexivity.
  assert (4 <= length (rd_buf st1))%nat as Hb1.
  { cbn [st1 rd_set_dataPkt rd_var rd_buf]. rewrite make_length.
    unfold DatagramSize. lia. }
  assert (forall m, (m <= length answers)%nat ->
            forall j, (j < m)%nat ->
                      quiet (D_Block (rd_dataPkt st1))
                        (net' (rd_sent st1 ++ repeat data (S j)))) as Hquiet.
  { intros m Hm j Hj. rewrite Es1. cbn [app].
    destruct (nth_error answers j) as [r|] eqn:E;
      [|apply nth_error_None in E; lia].
    change (data :: repeat data j) with (repeat data (S j)).
    unfold net'. rewrite (scripted_answers answers net data j r E).
    rewrite Forall_forall in Hq. apply Hq. eapply nth_error_In. exact E. }
  fold R. destruct (R <=? length answers)%nat eqn:ER.
  - apply Nat.leb_le in ER.
    destruct (RETRY_quiet_run net' data R 0 st1 (Hquiet R ER) Hb1)
      as (st' & E & Hs & _).
    rewrite Nat.add_0_r in E. rewrite E. cbn [RETRY].
    rewrite Hs, Es1, Edata. reflexivity.
  - apply Nat.leb_gt in ER.
    set (k := length answers) in *.
    destruct (RETRY_quiet_run net' data k (S (R - k - 1)) st1
                (Hquiet k (Nat.le_refl k)) Hb1)
      as (stk & E & Hs & Hd & Hbk).
    replace (k + S (R - k - 1))%nat with R in E by lia.
    rewrite E. rewrite Es1 in Hs. cbn [app] in Hs.
    assert (forall h, h <> [] ->
              net' (rd_sent stk ++ h) = net (rd_sent stk ++ h)) as Hlater.
    { intros h Hh. apply scripted_later. rewrite Hs, length_app, repeat_length.
      fold k. destruct h; [contradiction|]. cbn [length]. lia. }
    rewrite (RETRY_ext net' net data (S (R - k - 1)) stk Hlater).
    destruct (RETRY_acked net Hack (R - k - 1) stk d0) as
      (st2 & E2 & Hs2 & Hd2 & Hn2 & Hb2); [lia|exact Hd|].
    fold data in E2, Hs2, Hn2. rewrite E2.
    destruct (NEXTPACKET_after_ack net' (length (NewReader (Payload s)))
                st2 0 p) as (more & Hmore & He & Hsent).
    + lia.
    + rewrite Hd2, Hd. reflexivity.
    + rewrite Hn2, Edata. reflexivity.
    + lia.
    + fold p. lia.
    + intros h Hh. rewrite Hs2, <- app_assoc. apply Hlater. discriminate.
    + destruct (NEXTPACKET s net' _ st2) as [x st3]. cbn [fst snd] in *.
      rewrite He, Hsent, Hs2, Hs, Hmore, Edata, <- app_assoc. reflexivity.
Qed.

End Scripted.

(** C4, as amended.  In the wait for an acknowledgement, an
    acknowledgement of another block, or a datagram that is neither an
    acknowledgement nor an error packet, ends the attempt exactly as a
    timeout does: the loop goes on with one attempt less, the data packet
    written once for the attempt and the same data packet to write.  So
    when the first answers to a session are [k] timeouts and stray
    datagrams, in any order, and every later answer is the
    acknowledgement, the session writes the first data packet [k + 1]
    times and then the others once each, if its budget is more than [k];
    and if not, it writes the first data packet as many times as its
    budget and gives up. *)
Theorem stray_uses_an_attempt :
  (forall net data i st d,
      net (rd_sent st ++ [data]) = Receives d ->
      stray (rd_Read (rd_Write st data) d) ->
      exists st',
        RETRY net data (S i) st = RETRY net data i st' /\
        rd_sent st' = rd_sent st ++ [data] /\
        rd_dataPkt st' = rd_dataPkt st /\
        rd_buf st' = snd (Read (rd_buf st) d) /\
        rd_n st' = len data) /\
  (forall net data i st,
      net (rd_sent st ++ [data]) = ReadTimesOut ->
      RETRY net data (S i) st = RETRY net data i (rd_Write st data)) /\
  (forall s net rrq answers,
      acknowledges net ->
      Forall (quiet 1) answers ->
      let R := Z.to_nat (Retries s) in
      let p := NewReader (Payload s) in
      let first := block_datagram 0 p 0 in
      handleRead s true (scripted answers net) rrq
      = if (R <=? length answers)%nat
        then (ReadExhaustedRetries, repeat first R)
        else (ReadSendBlocks (uint16 (Z.of_nat (length p / 512 + 1))),
              repeat first (length answers) ++ block_datagrams 0 p)).
Proof.
  split; [|split].
  - intros net data i st d Hnet Hstray.
    destruct (RETRY_stray net data i st d Hnet Hstray) as [_ E].
    pose proof (switch_keeps (rd_Read (rd_Write st data) d))
      as (Hs & Hd & Hb & Hn).
    eexists. split; [exact E|]. auto.
  - intros net data i st Hnet. cbn [RETRY]. now rewrite Hnet.
  - intros s net rrq answers Hack Hq. now apply handleRead_scripted.
Qed.

Lemma stray_uses_an_attempt_witness :
  let s := server (make 1000) 4 in
  let answers := [Receives (Ack_MarshalBinary {| A_Block := 7 |});
                  ReadTimesOut;
                  Receives [x00; x09; xff]] in
  (handleRead s true (scripted answers ack_peer) ReadReq0
   = (ReadSendBlocks 2,
      repeat (block_datagram 0 (make 1000) 0) 3
        ++ block_datagrams 0 (make 1000))) /\
  (handleRead s true (scripted (answers ++ [ReadTimesOut]) ack_peer) ReadReq0
   = (ReadExhaustedRetries, repeat (block_datagram 0 (make 1000) 0) 4)).
Proof.
  intros s answers.
  assert (Forall (quiet 1) answers) as Hq.
  { apply Forall_cons; [|apply Forall_cons; [exact I|]].
    - left. exists 7, []. split; [reflexivity|discriminate].
    - apply Forall_cons; [|apply Forall_nil].
      right. exists 9. split; [reflexivity|split; discriminate]. }
  split.
  - apply (proj2 (proj2 stray_uses_an_attempt) s ack_peer ReadReq0 answers
             ack_peer_acknowledges Hq).
  - apply (proj2 (proj2 stray_uses_an_attempt) s ack_peer ReadReq0
             (answers ++ [ReadTimesOut]) ack_peer_acknowledges).
    apply Forall_app. split; [exact Hq|].
    apply Forall_cons; [exact I|apply Forall_nil].
Defined.
